(** * gh-cost-center: the assignment reconciliation engine

  A shallow embedding of the Go sources

  - [internal/cache]  (the file-backed cost-center cache),
  - [internal/github] (the retrying call layer and the cost-center client),
  - [internal/teams]  (the teams manager: resolver, provisioner, reconciler)

  together with the properties the design document states about them.

  Conventions.  Go's [int], [int64] and [time.Duration] are 64-bit two's
  complement integers: they are carried by [Z] and every arithmetic
  operation of the source on durations is followed by [wrap64]; the
  lengths of slices and maps, and their sums, stay far below the bound and
  are plain integers.  An instant ([time.Time]) is the number of nanoseconds since
  the Unix epoch.  A Go [map[string]V] is a [gmap string V]; a [range]
  over a map visits the entries in an order the language leaves open, which
  is supplied by a [MapOrder].  A Go value of type [(T, error)] is a
  [Result T] or, where both components matter, a pair. *)

From Stdlib Require Import ZArith String Ascii List Lia.
From stdpp Require Import base numbers option list gmap strings sorting fin_maps.

Local Open Scope string_scope.
Local Open Scope list_scope.
Local Open Scope Z_scope.

(* ===================================================================== *)
(** ** Go integers, durations and instants *)
(* ===================================================================== *)

Module GoInt.

Definition minInt64 : Z := - 2 ^ 63.
Definition maxInt64 : Z := 2 ^ 63 - 1.

(** Two's complement wrap-around of a 64-bit signed operation. *)
Definition wrap64 (z : Z) : Z := (z + 2 ^ 63) mod 2 ^ 64 - 2 ^ 63.

(** Saturation, as [time.Time.Sub] documents it: a difference that does
    not fit a [Duration] is replaced by the nearest bound. *)
Definition sat64 (z : Z) : Z := Z.max minInt64 (Z.min maxInt64 z).

Definition in_int64 (z : Z) : Prop := minInt64 <= z <= maxInt64.

(** [time.Nanosecond .. time.Hour], in nanoseconds. *)
Definition Second : Z := 1000000000.
Definition Hour : Z := 3600 * Second.

(** [time.Since(t)] when the clock reads [now]. *)
Definition time_Since (now t : Z) : Z := sat64 (now - t).

(** [time.Until(t)] when the clock reads [now]. *)
Definition time_Until (now t : Z) : Z := sat64 (t - now).

End GoInt.

(* ===================================================================== *)
(** ** Shared Go idioms: results, wrapped errors, map iteration *)
(* ===================================================================== *)

Module Go.

(** A Go [error] value.  [APIError] is [*github.APIError]; [Wrap] is
    [fmt.Errorf("ctx: %w", err)]; [Other] is any other error. *)
Inductive Error :=
| APIError (status : Z) (body : string)
| Other (msg : string)
| Wrap (ctx : string) (err : Error).

(** [errors.As(err, &apiErr)] *)
Fixpoint as_APIError (e : Error) : option (Z * string) :=
  match e with
  | APIError status body => Some (status, body)
  | Other _ => None
  | Wrap _ e' => as_APIError e'
  end.

(** A Go [(T, error)] of which exactly one component is set. *)
Inductive Result (A : Type) :=
| Ok (a : A)
| Err (e : Error).
Arguments Ok {A}.
Arguments Err {A}.

(** The order in which a [range] statement visits a map.  [site] is the
    source line of the statement, so that two statements need not agree. *)
Record MapOrder := mkMapOrder {
  range : forall (site : nat) (V : Type), gmap string V -> list (string * V);
  range_perm : forall site V (m : gmap string V), range site V m ≡ₚ map_to_list m
}.
Arguments range _ _ {V}.

(** Reading a Go [map[K]bool] at a key: the zero value when it is absent. *)
Definition lookup_bool `{Countable K} (m : gmap K bool) (k : K) : bool :=
  default false (m !! k).

(** Reading a Go [map[string]string] at a key: [""] when it is absent. *)
Definition lookup_str (m : gmap string string) (k : string) : string :=
  default "" (m !! k).

(** Reading a Go [map[string][]T] at a key: [nil] when it is absent. *)
Definition lookup_list {A} (m : gmap string (list A)) (k : string) : list A :=
  default [] (m !! k).

Definition string_le (x y : string) : Prop := String.leb x y = true.

#[export] Instance string_le_dec : RelDecision string_le.
Proof. intros x y. unfold string_le. apply _. Defined.

(** [sort.Strings] *)
Definition sort_Strings (l : list string) : list string := merge_sort string_le l.

End Go.

(* ===================================================================== *)
(** ** internal/cache: the durable lookup cache *)
(* ===================================================================== *)

Module Cache.
Import GoInt.

Definition DefaultTTLHours : Z := 24.

(** [type Entry struct].  [CachedAt] is an instant, [TTLHours] a Go [int]. *)
Record Entry := mkEntry {
  ID : string;
  Name : string;
  CachedAt : Z;
  TTLHours : Z
}.

(** The zero [time.Time] is January 1, year 1, 00:00 UTC. *)
Definition zeroTime : Z := - 62135596800 * Second.

(** [Entry{}] *)
Definition zeroEntry : Entry := mkEntry "" "" zeroTime 0.

(** [func (e Entry) IsExpired() bool]:
    [ttl := time.Duration(e.TTLHours) * time.Hour;
     return time.Since(e.CachedAt) > ttl]. *)
Definition IsExpired (now : Z) (e : Entry) : bool :=
  let ttl := wrap64 (TTLHours e * Hour) in
  ttl <? time_Since now (CachedAt e).

(** [type Cache struct]: the fields the operations below read or write. *)
Record Cache := mkCache {
  ttlHours : Z;
  Entries : gmap string Entry
}.

(** [New] on a directory without a cache file. *)
Definition New : Cache := mkCache DefaultTTLHours ∅.

(** [func (c *Cache) Get(key string) (Entry, bool)], returning also the
    cache as the call leaves it. *)
Definition Get (now : Z) (key : string) (c : Cache) : (Entry * bool) * Cache :=
  match Entries c !! key with
  | None => ((zeroEntry, false), c)
  | Some e =>
      if IsExpired now e then ((zeroEntry, false), c)
      else ((e, true), c)
  end.

(** [func (c *Cache) Set(key, id, name string) error]: the update of the
    table.  The result of [save] belongs to the file system and is passed
    back to the caller unchanged, so it is not part of this function. *)
Definition Set_ (now : Z) (key id name : string) (c : Cache) : Cache :=
  mkCache (ttlHours c) (<[key := mkEntry id name now (ttlHours c)]> (Entries c)).

(** The largest number of hours whose nanoseconds fit a [Duration]. *)
Definition maxTTLHours : Z := 2562047.

End Cache.

(* ===================================================================== *)
(** ** internal/github: the resilient call layer *)
(* ===================================================================== *)

Module CallLayer.
Import GoInt Go.

Definition maxRetries : Z := 3.
Definition retryBackoffBase : Z := 1 * Second.

(** [rateLimitFallback] is used when the reset header is missing. *)
Definition rateLimitFallback : Z := 60 * Second.

(** [var retryableStatusCodes = map[int]bool{...}] *)
Definition retryableStatusCodes : gmap Z bool :=
  <[429 := true]> (<[500 := true]> (<[502 := true]> (<[503 := true]> (<[504 := true]> ∅)))).

(** The body of a response as a reader: absent, or a stream that delivers
    [data] and then ends, with an error instead of the end when [broken]. *)
Inductive Body :=
| NoBody
| Stream (data : string) (broken : bool).

(** [*http.Response]: the parts [doJSON] looks at.  [RateLimitReset] is
    [resp.Header.Get("X-RateLimit-Reset")], empty when the header is absent. *)
Record Response := mkResponse {
  StatusCode : Z;
  RateLimitReset : string;
  RespBody : Body
}.

(** What one call of [c.do] gives back: [(nil, err)] with [err.Error()], or
    [(resp, nil)]. *)
Inductive Outcome :=
| DoErr (msg : string)
| DoResp (resp : Response).

(** [strings.Contains(s, substr)] *)
Fixpoint Contains (s substr : string) : bool :=
  String.prefix substr s ||
  match s with
  | EmptyString => false
  | String _ rest => Contains rest substr
  end.

(** [func isTransient(err error) bool], on [err.Error()] of a non-nil error. *)
Definition isTransient (s : string) : bool :=
  existsb (Contains s)
    ["connection refused"; "connection reset"; "i/o timeout";
     "TLS handshake timeout"; "EOF"].

(** [func readBody(resp *http.Response) string]: at most 4096 bytes are
    requested from the stream. *)
Definition readBody (resp : Response) : string :=
  match RespBody resp with
  | NoBody => ""
  | Stream data broken =>
      if broken && (String.length data <? 4096)%nat
      then "<error reading body>"
      else String.substring 0 4096 data
  end.

(** [func (c *Client) backoff(attempt int, _ *http.Response) time.Duration]:
    [retryBackoffBase * time.Duration(math.Pow(2, float64(attempt)))].  The
    power is exact for the attempts the loop passes. *)
Definition backoff (attempt : Z) : Z := wrap64 (retryBackoffBase * 2 ^ attempt).

Definition is_digit (c : ascii) : bool :=
  let n := N_of_ascii c in ((48 <=? n) && (n <=? 57))%N.

Fixpoint parse_digits (acc : Z) (s : string) : option Z :=
  match s with
  | EmptyString => Some acc
  | String c rest =>
      if is_digit c
      then parse_digits (10 * acc + (Z.of_N (N_of_ascii c) - 48)) rest
      else None
  end.

(** [strconv.ParseInt(s, 10, 64)]: an optional sign, one or more decimal
    digits, and a value that fits [int64]; [None] for a non-nil error. *)
Definition ParseInt (s : string) : option Z :=
  match s with
  | EmptyString => None
  | String c rest =>
      let neg := Ascii.eqb c "-" in
      let digits := if Ascii.eqb c "+" || neg then rest else s in
      match digits with
      | EmptyString => None
      | _ =>
          match parse_digits 0 digits with
          | None => None
          | Some un =>
              if neg
              then (if 2 ^ 63 <? un then None else Some (- un))
              else (if 2 ^ 63 <=? un then None else Some un)
          end
      end
  end.

(** [func (c *Client) rateLimitWait(resp *http.Response) time.Duration],
    when the clock reads [now]. *)
Definition rateLimitWait (now : Z) (resp : Response) : Z :=
  let resetStr := RateLimitReset resp in
  if String.eqb resetStr "" then rateLimitFallback
  else
    match ParseInt resetStr with
    | None => rateLimitFallback
    | Some resetUnix =>
        let wait := wrap64 (time_Until now (resetUnix * Second) + Second) in
        if wait <=? 0 then Second else wait
    end.

Section DoJSON.

(** The value [dest] is decoded into, and the JSON decoder on a body. *)
Variable Dest : Type.
Variable decode : Body -> option Dest.

(** The five ways [doJSON] returns. *)
Inductive Ret :=
| RetOK (resp : Response) (v : option Dest)
| RetDecodeError (resp : Response)
| RetTransport (msg : string)
| RetAPIError (resp : Response) (status : Z) (body : string)
| RetExhausted.

Inductive Sleep :=
| SleepBackoff (d : Z)
| SleepRateLimit (d : Z).

(** One turn of the loop as the outside world decides it: what [c.do]
    returns and what the clock reads when the response is handled. *)
Record Step := mkStep {
  outcome : Outcome;
  clock : Z
}.

(** A run of the loop over a script of turns: the value returned ([None]
    when the script ends while the loop is still going), the sleeps in
    order, and the number of calls of [c.do]. *)
Record Run := mkRun {
  returned : option Ret;
  sleeps : list Sleep;
  calls : nat
}.

Definition finish (r : Ret) : Run := mkRun (Some r) [] 1.
Definition sleep_then (s : Sleep) (k : Run) : Run :=
  mkRun (returned k) (s :: sleeps k) (S (calls k)).

(** What the body of the loop does with one turn: it returns, or it sleeps
    for a rate limit and goes on ([continue] without [attempt++]), or it
    sleeps for a back-off and goes on with [attempt++]. *)
Inductive Turn :=
| Return (r : Ret)
| WaitRateLimit (d : Z)
| WaitBackoff (d : Z).

(** The body of the [for attempt < maxRetries] loop of [doJSON]. *)
Definition turn (wantDest : bool) (attempt : Z) (st : Step) : Turn :=
  match outcome st with
  | DoErr msg =>
      if isTransient msg && (attempt <? maxRetries - 1)
      then WaitBackoff (backoff attempt)
      else Return (RetTransport msg)
  | DoResp resp =>
      if (200 <=? StatusCode resp) && (StatusCode resp <? 300)
      then
        if wantDest
        then match decode (RespBody resp) with
             | Some v => Return (RetOK resp (Some v))
             | None => Return (RetDecodeError resp)
             end
        else Return (RetOK resp None)
      else
        let errBody := readBody resp in
        if StatusCode resp =? 429
        then WaitRateLimit (rateLimitWait (clock st) resp)
        else if lookup_bool retryableStatusCodes (StatusCode resp)
                && (attempt <? maxRetries - 1)
        then WaitBackoff (backoff attempt)
        else Return (RetAPIError resp (StatusCode resp) errBody)
  end.

(** The loop, entered with the counter at [attempt]. *)
Fixpoint doJSON_loop (wantDest : bool) (attempt : Z) (script : list Step) : Run :=
  if negb (attempt <? maxRetries) then mkRun (Some RetExhausted) [] 0
  else
    match script with
    | [] => mkRun None [] 0
    | st :: script' =>
        match turn wantDest attempt st with
        | Return r => finish r
        | WaitRateLimit d =>
            sleep_then (SleepRateLimit d) (doJSON_loop wantDest attempt script')
        | WaitBackoff d =>
            sleep_then (SleepBackoff d) (doJSON_loop wantDest (attempt + 1) script')
        end
    end.

(** [func (c *Client) doJSON(method, url string, body any, dest any)] *)
Definition doJSON (wantDest : bool) (script : list Step) : Run :=
  doJSON_loop wantDest 0 script.

(** The turns answered with 429 and the two kinds of sleep, for counting. *)
Definition rate_limited (st : Step) : bool :=
  match outcome st with
  | DoResp resp => StatusCode resp =? 429
  | DoErr _ => false
  end.

Definition is_backoff (s : Sleep) : bool :=
  match s with SleepBackoff _ => true | SleepRateLimit _ => false end.

Definition is_rate_limit_sleep (s : Sleep) : bool := negb (is_backoff s).

(** The sleep a rate-limited turn causes. *)
Definition rate_limit_sleep (st : Step) : Sleep :=
  match outcome st with
  | DoResp resp => SleepRateLimit (rateLimitWait (clock st) resp)
  | DoErr _ => SleepRateLimit 0
  end.

(** The back-off sleeps that can follow when the counter is at [a]. *)
Definition backoffsFrom (a : Z) : list Sleep :=
  (fun i => SleepBackoff (backoff i)) <$> seqZ a (maxRetries - 1 - a).

(** The calls of [c.do] that counted against the budget. *)
Definition attempts (r : Run) : nat :=
  (calls r - length (filter (fun s => is_rate_limit_sleep s = true) (sleeps r)))%nat.

End DoJSON.

Arguments RetOK {Dest}.
Arguments RetDecodeError {Dest}.
Arguments RetTransport {Dest}.
Arguments RetAPIError {Dest}.
Arguments RetExhausted {Dest}.
Arguments returned {Dest}.
Arguments sleeps {Dest}.
Arguments calls {Dest}.
Arguments mkRun {Dest}.
Arguments attempts {Dest}.
Arguments backoffsFrom : clear implicits.
Arguments Return {Dest}.
Arguments WaitRateLimit {Dest}.
Arguments WaitBackoff {Dest}.

End CallLayer.


(* ===================================================================== *)
(** ** internal/github: cost centers, teams, budgets *)
(* ===================================================================== *)

Module Github.
Import Go.

Record CostCenter := mkCostCenter {
  cc_ID : string;
  cc_Name : string;
  cc_State : string
}.

Record costCenterCreateResponse := mkCreateResponse {
  created_ID : string;
  created_Name : string
}.

Record Resource := mkResource {
  res_Type : string;
  res_Name : string
}.

Record costCenterDetailResponse := mkDetail {
  detail_ID : string;
  detail_Name : string;
  detail_State : string;
  Resources : list Resource
}.

Record CostCenterRef := mkRef {
  ref_ID : string;
  ref_Name : string
}.

Record Membership := mkMembership {
  CostCenter_of : CostCenterRef
}.

(** [github.Team] and [github.TeamMember]: the fields the teams manager
    reads.  Their declarations are not part of the sources at hand. *)
Record Team := mkTeam {
  team_Name : string;
  team_Slug : string
}.

Record TeamMember := mkTeamMember {
  Login : string
}.

(** What [CreateProductBudget] returns: [(ok, nil)], an error that is a
    [*BudgetsAPIUnavailableError], or another error. *)
Inductive BudgetResult :=
| BudgetDone (ok : bool)
| BudgetUnavailable
| BudgetFailed (e : Error).

(** *** The pattern [uuidFromConflictRe]

    [(?i)existing cost center UUID:\s*([a-f0-9]{8}-[a-f0-9]{4}-[a-f0-9]{4}-[a-f0-9]{4}-[a-f0-9]{12})]
    matched on the bytes of the body. *)

Definition ascii_in (lo hi : N) (c : ascii) : bool :=
  let n := N_of_ascii c in ((lo <=? n) && (n <=? hi))%N.

Definition to_lower (c : ascii) : ascii :=
  if ascii_in 65 90 c then ascii_of_N (N_of_ascii c + 32) else c.

(** [[a-f0-9]] under [(?i)] *)
Definition is_hex (c : ascii) : bool :=
  ascii_in 48 57 c || ascii_in 97 102 (to_lower c).

(** [\s] is [[\t\n\f\r ]] *)
Definition is_space (c : ascii) : bool :=
  let n := N_of_ascii c in
  ((n =? 9) || (n =? 10) || (n =? 12) || (n =? 13) || (n =? 32))%N.

(** A literal under [(?i)]: letters match in either case, and [s] also
    matches U+017F, the one further rune that folds to a letter of the
    pattern (bytes C5 BF). *)
Fixpoint match_literal (pat s : string) : option string :=
  match pat with
  | EmptyString => Some s
  | String p pat' =>
      match s with
      | EmptyString => None
      | String c s' =>
          if Ascii.eqb (to_lower c) (to_lower p) then match_literal pat' s'
          else if Ascii.eqb (to_lower p) "s" && (N_of_ascii c =? 197)%N
          then match s' with
               | String c' s'' =>
                   if (N_of_ascii c' =? 191)%N then match_literal pat' s'' else None
               | EmptyString => None
               end
          else None
      end
  end.

(** [[a-f0-9]{n}]: the matched text and what follows it. *)
Fixpoint match_hex (n : nat) (s : string) : option (string * string) :=
  match n with
  | O => Some ("", s)
  | S n' =>
      match s with
      | String c s' =>
          if is_hex c
          then match match_hex n' s' with
               | Some (h, rest) => Some (String c h, rest)
               | None => None
               end
          else None
      | EmptyString => None
      end
  end.

Definition match_dash (s : string) : option string :=
  match s with
  | String c s' => if Ascii.eqb c "-" then Some s' else None
  | EmptyString => None
  end.

(** [\s*] *)
Fixpoint skip_spaces (s : string) : string :=
  match s with
  | String c s' => if is_space c then skip_spaces s' else s
  | EmptyString => s
  end.

(** The capture group: 8-4-4-4-12 hexadecimal digits. *)
Definition match_uuid (s : string) : option string :=
  match match_hex 8 s with
  | Some (a, s1) =>
  match match_dash s1 with
  | Some s1' =>
  match match_hex 4 s1' with
  | Some (b, s2) =>
  match match_dash s2 with
  | Some s2' =>
  match match_hex 4 s2' with
  | Some (c, s3) =>
  match match_dash s3 with
  | Some s3' =>
  match match_hex 4 s3' with
  | Some (d, s4) =>
  match match_dash s4 with
  | Some s4' =>
  match match_hex 12 s4' with
  | Some (e, _) => Some (a ++ "-" ++ b ++ "-" ++ c ++ "-" ++ d ++ "-" ++ e)%string
  | None => None end
  | None => None end
  | None => None end
  | None => None end
  | None => None end
  | None => None end
  | None => None end
  | None => None end
  | None => None end.

(** The whole pattern anchored at the start of [s]. *)
Definition match_here (s : string) : option string :=
  match match_literal "existing cost center UUID:" s with
  | Some rest => match_uuid (skip_spaces rest)
  | None => None
  end.

(** [uuidFromConflictRe.FindStringSubmatch(body)]: [Some m1] when the
    result has length 2, with [m1] its second element (the leftmost match). *)
Fixpoint FindUUID (body : string) : option string :=
  match match_here body with
  | Some id => Some id
  | None =>
      match body with
      | String _ rest => FindUUID rest
      | EmptyString => None
      end
  end.

End Github.

(* ===================================================================== *)
(** ** The client and the teams manager over a remote service *)
(* ===================================================================== *)

Module Engine.
Import GoInt Go Github.

(** A value logged as a key of a structured log record. *)
Inductive LogValue :=
| LStr (s : string)
| LInt (n : Z).

(** What a run does to the outside: the requests it sends, each with the
    answer of [doJSON], and the log records a stated property refers to. *)
Inductive Event :=
| EvGetEnterpriseTeams (r : Result (list Team))
| EvGetOrgTeams (org : string) (r : Result (list Team))
| EvGetEnterpriseTeamMembers (slug : string) (r : Result (list TeamMember))
| EvGetOrgTeamMembers (org slug : string) (r : Result (list TeamMember))
| EvListCostCenters (r : Result (list CostCenter))
| EvGetCostCenter (id : string) (r : Result costCenterDetailResponse)
| EvPostCostCenter (name : string) (r : Result costCenterCreateResponse)
| EvPostUsers (id : string) (users : list string) (r : Result unit)
| EvDeleteUsers (id : string) (users : list string) (r : Result unit)
| EvGetMemberships (user : string) (r : Result (list Membership))
| EvCreateProductBudget (ccID ccName product : string) (amount : Z) (r : BudgetResult)
| EvLog (level msg : string) (fields : list (string * LogValue)).

(** The requests that change the remote state: POST of a cost center, POST
    and DELETE of a cost center's resources, creation of a budget. *)
Definition mutating (e : Event) : bool :=
  match e with
  | EvPostCostCenter _ _ | EvPostUsers _ _ _ | EvDeleteUsers _ _ _
  | EvCreateProductBudget _ _ _ _ _ => true
  | _ => false
  end.

(** The requests that only read the remote state. *)
Definition reading (e : Event) : bool :=
  match e with
  | EvLog _ _ _ => false
  | _ => negb (mutating e)
  end.

(** [config.ProductBudget] *)
Record ProductBudget := mkProductBudget {
  Amount : Z;
  Enabled : bool
}.

(** [teams.UserAssignment] *)
Record UserAssignment := mkUserAssignment {
  Username : string;
  CostCenter : string;
  Org : string;
  TeamSlug : string
}.

(** [teams.Summary] *)
Record Summary := mkSummary {
  sum_Mode : string;
  sum_Scope : string;
  Organizations : list string;
  TotalTeams : Z;
  TotalCCs : Z;
  UniqueUsers : Z;
  CostCenters : gmap string Z
}.

(** The configuration fields of [teams.Manager], fixed during a run. *)
Record Manager := mkManager {
  Enterprise : string;
  scope : string;
  mode : string;
  orgs : list string;
  autoCreate : bool;
  mappings : gmap string string;
  removeUsers : bool;
  createBudgets : bool;
  budgetProducts : gmap string ProductBudget
}.

(** One turn of the team loop of [BuildTeamAssignments] that reaches the
    member loop: the source, the team, the resolved name and the members. *)
Record Processed := mkProcessed {
  p_org : string;
  p_slug : string;
  p_cc : string;
  p_members : list string
}.

Section WithRemote.

(** The state of the remote service and of the clock. *)
Variable W : Type.

(** Modelled from the spec: the bodies of [GetEnterpriseTeams],
    [GetOrgTeams], [GetEnterpriseTeamMembers], [GetOrgTeamMembers] and
    [CreateProductBudget], methods of [github.Client], are not part of the
    sources at hand.  By the design document the first four retrieve group
    definitions and group membership from the remote service and the fifth
    creates a budget; each is one field below, next to the requests that
    the methods whose source is present send through [doJSON].  Every
    request gives an answer and a new state of the remote. *)
Record Remote := mkRemote {
  time_Now : W -> Z;
  GetEnterpriseTeams_ : W -> Result (list Team) * W;
  GetOrgTeams_ : string -> W -> Result (list Team) * W;
  GetEnterpriseTeamMembers_ : string -> W -> Result (list TeamMember) * W;
  GetOrgTeamMembers_ : string -> string -> W -> Result (list TeamMember) * W;
  CreateProductBudget_ : string -> string -> string -> Z -> W -> BudgetResult * W;
  listCostCenters : W -> Result (list Github.CostCenter) * W;
  getCostCenter : string -> W -> Result costCenterDetailResponse * W;
  postCostCenter : string -> W -> Result costCenterCreateResponse * W;
  postUsers : string -> list string -> W -> Result unit * W;
  deleteUsers : string -> list string -> W -> Result unit * W;
  getMemberships : string -> W -> Result (list Membership) * W
}.

(** What a run can change: the outside, the client's optional cache and the
    three per-run caches of the manager. *)
Record State := mkState {
  world : W;
  ccCache : option Cache.Cache;
  teamsCache : gmap string (list Team);
  membersCache : gmap string (list string);
  ccNameCache : gmap string string
}.

Definition set_world (w : W) (s : State) : State :=
  mkState w (ccCache s) (teamsCache s) (membersCache s) (ccNameCache s).
Definition set_ccCache (c : option Cache.Cache) (s : State) : State :=
  mkState (world s) c (teamsCache s) (membersCache s) (ccNameCache s).
Definition set_teamsCache (t : gmap string (list Team)) (s : State) : State :=
  mkState (world s) (ccCache s) t (membersCache s) (ccNameCache s).
Definition set_membersCache (t : gmap string (list string)) (s : State) : State :=
  mkState (world s) (ccCache s) (teamsCache s) t (ccNameCache s).
Definition set_ccNameCache (t : gmap string string) (s : State) : State :=
  mkState (world s) (ccCache s) (teamsCache s) (membersCache s) t.

(** A computation: a value, the state it leaves and the events it emits. *)
Definition M (A : Type) : Type := State -> (A * State) * list Event.

Definition ret {A} (a : A) : M A := fun s => ((a, s), []).

Definition bind {A B} (m : M A) (k : A -> M B) : M B :=
  fun s =>
    let '((a, s1), e1) := m s in
    let '((b, s2), e2) := k a s1 in
    ((b, s2), e1 ++ e2).

Notation "x <- m ;; k" := (bind m (fun x => k))
  (at level 100, m at next level, right associativity).

Definition val {A} (r : (A * State) * list Event) : A := fst (fst r).
Definition final {A} (r : (A * State) * list Event) : State := snd (fst r).
Definition events {A} (r : (A * State) * list Event) : list Event := snd r.

Definition get : M State := fun s => ((s, s), []).
Definition modify (f : State -> State) : M unit := fun s => ((tt, f s), []).
Definition emit (e : Event) : M unit := fun s => ((tt, s), [e]).

(** A loop over a slice that runs to its end. *)
Fixpoint foldM {A B} (f : B -> A -> M B) (l : list A) (b : B) : M B :=
  match l with
  | [] => ret b
  | a :: l' => b' <- f b a ;; foldM f l' b'
  end.

Variable R : Remote.
Variable ord : MapOrder.

(** One request: the answer comes from the remote, the event records it. *)
Definition call {A} (f : W -> A * W) (ev : A -> Event) : M A :=
  fun s => let '(a, w) := f (world s) in ((a, set_world w s), [ev a]).

(** [if c.ccCache != nil { entry, ok := c.ccCache.Get(key) ... }] *)
Definition cacheGet (key : string) : M (option Cache.Entry) :=
  fun s =>
    match ccCache s with
    | None => ((None, s), [])
    | Some c =>
        let '((e, ok), c') := Cache.Get (time_Now R (world s)) key c in
        ((if ok then Some e else None, set_ccCache (Some c') s), [])
    end.

(** [if c.ccCache != nil { _ = c.ccCache.Set(key, id, name) }] *)
Definition cacheSet (key id name : string) : M unit :=
  fun s =>
    match ccCache s with
    | None => ((tt, s), [])
    | Some c =>
        ((tt, set_ccCache (Some (Cache.Set_ (time_Now R (world s)) key id name c)) s), [])
    end.

(** *** cost_centers.go *)

(** [func (c *Client) GetAllActiveCostCenters() (map[string]string, error)] *)
Definition GetAllActiveCostCenters : M (Result (gmap string string)) :=
  r <- call (listCostCenters R) EvListCostCenters ;;
  match r with
  | Err e => ret (Err (Wrap "fetching cost centers" e))
  | Ok ccs =>
      active <- foldM (fun (active : gmap string string) cc =>
                  if String.eqb (cc_State cc) "active"
                     && negb (String.eqb (cc_Name cc) "")
                     && negb (String.eqb (cc_ID cc) "")
                  then _ <- cacheSet (cc_Name cc) (cc_ID cc) (cc_Name cc) ;;
                       ret (<[cc_Name cc := cc_ID cc]> active)
                  else ret active) ccs ∅ ;;
      ret (Ok active)
  end.

(** [func (c *Client) GetCostCenter(id string)], returning the detail or the error *)
Definition GetCostCenter (id : string) : M (Result costCenterDetailResponse) :=
  r <- call (getCostCenter R id) (EvGetCostCenter id) ;;
  match r with
  | Err e => ret (Err (Wrap "fetching cost center" e))
  | Ok resp => ret (Ok resp)
  end.

(** The user names among the resources of a cost center. *)
Definition userNames (rs : list Resource) : list string :=
  res_Name <$> filter (fun r => String.eqb (res_Type r) "User" = true
                                ∧ String.eqb (res_Name r) "" = false) rs.

(** [func (c *Client) GetCostCenterMembers(id string) ([]string, error)] *)
Definition GetCostCenterMembers (id : string) : M (Result (list string)) :=
  r <- GetCostCenter id ;;
  match r with
  | Err e => ret (Err e)
  | Ok detail => ret (Ok (userNames (Resources detail)))
  end.

(** [func (c *Client) findCostCenterByName(name string) (string, error)] *)
Definition findCostCenterByName (name : string) : M (Result string) :=
  r <- GetAllActiveCostCenters ;;
  match r with
  | Err e => ret (Err (Wrap "finding cost center by name" e))
  | Ok active =>
      match active !! name with
      | Some id => ret (Ok id)
      | None => ret (Err (Other "no active cost center found with name"))
      end
  end.

(** [func (c *Client) CreateCostCenter(name string) (string, error)] *)
Definition CreateCostCenter (name : string) : M (Result string) :=
  hit <- cacheGet name ;;
  match hit with
  | Some entry => ret (Ok (Cache.ID entry))
  | None =>
      r <- call (postCostCenter R name) (EvPostCostCenter name) ;;
      match r with
      | Ok resp =>
          _ <- cacheSet name (created_ID resp) name ;;
          ret (Ok (created_ID resp))
      | Err err =>
          match as_APIError err with
          | Some (status, body) =>
              if status =? 409
              then match FindUUID body with
                   | Some id => _ <- cacheSet name id name ;; ret (Ok id)
                   | None => findCostCenterByName name
                   end
              else ret (Err (Wrap "creating cost center" err))
          | None => ret (Err (Wrap "creating cost center" err))
          end
      end
  end.

(** [func (c *Client) CreateCostCenterWithPreload(name string,
    activeMap map[string]string) (string, error)].  The map is shared with
    the caller: the map as the call leaves it is returned as well. *)
Definition CreateCostCenterWithPreload (name : string) (activeMap : gmap string string)
  : M (Result string * gmap string string) :=
  match activeMap !! name with
  | Some id => ret (Ok id, activeMap)
  | None =>
      hit <- cacheGet name ;;
      match hit with
      | Some entry => ret (Ok (Cache.ID entry), <[name := Cache.ID entry]> activeMap)
      | None =>
          r <- CreateCostCenter name ;;
          match r with
          | Err e => ret (Err e, activeMap)
          | Ok id => ret (Ok id, <[name := id]> activeMap)
          end
      end
  end.

(** [func (c *Client) CheckUserCostCenterMembership(username string)], returning a
    reference and an error: both components of the result. *)
Definition CheckUserCostCenterMembership (username : string)
  : M (option CostCenterRef * option Error) :=
  r <- call (getMemberships R username) (EvGetMemberships username) ;;
  match r with
  | Err _ => ret (None, None)
  | Ok memberships =>
      match memberships with
      | ms :: _ => ret (Some (CostCenter_of ms), None)
      | [] => ret (None, None)
      end
  end.

(** [func toSet(ss []string) map[string]bool] *)
Definition toSet (ss : list string) : gmap string bool :=
  foldl (fun m s => <[s := true]> m) ∅ ss.

(** The first loop of [AddUsersToCostCenter]: who is already in the target,
    who is skipped, who is to be added. *)
Fixpoint selectUsers (memberSet : gmap string bool) (ignoreCurrentCC : bool)
    (usernames : list string) (results : gmap string bool) (toAdd : list string)
  : M (gmap string bool * list string) :=
  match usernames with
  | [] => ret (results, toAdd)
  | u :: rest =>
      if lookup_bool memberSet u
      then selectUsers memberSet ignoreCurrentCC rest (<[u := true]> results) toAdd
      else if negb ignoreCurrentCC
      then
        chk <- CheckUserCostCenterMembership u ;;
        match fst chk with
        | Some _ => selectUsers memberSet ignoreCurrentCC rest (<[u := false]> results) toAdd
        | None => selectUsers memberSet ignoreCurrentCC rest results (toAdd ++ [u])
        end
      else selectUsers memberSet ignoreCurrentCC rest results (toAdd ++ [u])
  end.

Definition batchSize : nat := 50.

(** [for i := 0; i < len(toAdd); i += batchSize { batch := toAdd[i:end] ... }]:
    the batches in order.  [fuel] bounds the number of turns. *)
Fixpoint chunks (fuel : nat) (l : list string) : list (list string) :=
  match fuel with
  | O => []
  | S fuel' =>
      match l with
      | [] => []
      | _ => take batchSize l :: chunks fuel' (drop batchSize l)
      end
  end.

Definition batches (l : list string) : list (list string) := chunks (length l) l.

(** [for _, u := range batch { results[u] = ok }] *)
Definition markAll (ok : bool) (users : list string) (results : gmap string bool)
  : gmap string bool :=
  foldl (fun res u => <[u := ok]> res) results users.

(** The second loop of [AddUsersToCostCenter]. *)
Fixpoint addBatches (costCenterID : string) (bs : list (list string))
    (results : gmap string bool) : M (gmap string bool) :=
  match bs with
  | [] => ret results
  | batch :: rest =>
      r <- call (postUsers R costCenterID batch) (EvPostUsers costCenterID batch) ;;
      match r with
      | Err _ => addBatches costCenterID rest (markAll false batch results)
      | Ok _ => addBatches costCenterID rest (markAll true batch results)
      end
  end.

(** [func (c *Client) AddUsersToCostCenter(costCenterID string,
    usernames []string, ignoreCurrentCC bool) (map[string]bool, error)] *)
Definition AddUsersToCostCenter (costCenterID : string) (usernames : list string)
    (ignoreCurrentCC : bool) : M (Result (gmap string bool)) :=
  match usernames with
  | [] => ret (Ok ∅)
  | _ =>
      r <- GetCostCenterMembers costCenterID ;;
      match r with
      | Err e => ret (Err (Wrap "checking cost center members" e))
      | Ok currentMembers =>
          let memberSet := toSet currentMembers in
          sel <- selectUsers memberSet ignoreCurrentCC usernames ∅ [] ;;
          let results := fst sel in
          let toAdd := snd sel in
          match toAdd with
          | [] => ret (Ok results)
          | _ => res <- addBatches costCenterID (batches toAdd) results ;; ret (Ok res)
          end
      end
  end.

(** [func (c *Client) BulkUpdateCostCenterAssignments(assignments
    map[string][]string, ignoreCurrentCC bool) (map[string]map[string]bool, error)];
    the error is always nil. *)
Definition BulkUpdateCostCenterAssignments (assignments : gmap string (list string))
    (ignoreCurrentCC : bool) : M (Result (gmap string (gmap string bool))) :=
  results <- foldM (fun (results : gmap string (gmap string bool)) '(ccID, usernames) =>
      match usernames with
      | [] => ret results
      | _ =>
          r <- AddUsersToCostCenter ccID usernames ignoreCurrentCC ;;
          match r with
          | Err _ => ret (<[ccID := markAll false usernames ∅]> results)
          | Ok ccResults => ret (<[ccID := ccResults]> results)
          end
      end) (range ord 310 assignments) ∅ ;;
  ret (Ok results).

(** [func (c *Client) RemoveUsersFromCostCenter(costCenterID string,
    usernames []string) (map[string]bool, error)]: both components. *)
Definition RemoveUsersFromCostCenter (costCenterID : string) (usernames : list string)
  : M (gmap string bool * option Error) :=
  match usernames with
  | [] => ret (∅, None)
  | _ =>
      r <- call (deleteUsers R costCenterID usernames) (EvDeleteUsers costCenterID usernames) ;;
      match r with
      | Err e => ret (markAll false usernames ∅, Some (Wrap "removing users from cost center" e))
      | Ok _ => ret (markAll true usernames ∅, None)
      end
  end.

(** *** teams/manager.go *)

Variable m : Manager.

(** [len] of a slice or of a map, as a Go [int]. *)
Definition len {A} (l : list A) : Z := Z.of_nat (length l).
Definition len_map {V} (mp : gmap string V) : Z := Z.of_nat (size mp).

Definition is_enterprise : bool := String.eqb (scope m) "enterprise".

(** The key under which a team is cached: the slug for the enterprise
    scope, [org/slug] otherwise. *)
Definition teamKeyOf (orgOrEnterprise slug : string) : string :=
  if is_enterprise then slug else (orgOrEnterprise ++ "/" ++ slug)%string.

(** The loop over [m.orgs] in [fetchAllTeams]. *)
Fixpoint fetchOrgTeams (os : list string) (allTeams : gmap string (list Team))
  : M (Result (gmap string (list Team))) :=
  match os with
  | [] => ret (Ok allTeams)
  | org :: rest =>
      r <- call (GetOrgTeams_ R org) (EvGetOrgTeams org) ;;
      match r with
      | Err e => ret (Err (Wrap "fetching teams for org" e))
      | Ok teams =>
          _ <- modify (fun s => set_teamsCache (<[org := teams]> (teamsCache s)) s) ;;
          fetchOrgTeams rest (<[org := teams]> allTeams)
      end
  end.

(** [func (m *Manager) fetchAllTeams() (map[string][]github.Team, error)] *)
Definition fetchAllTeams : M (Result (gmap string (list Team))) :=
  if is_enterprise
  then
    r <- call (GetEnterpriseTeams_ R) EvGetEnterpriseTeams ;;
    match r with
    | Err e => ret (Err (Wrap "fetching enterprise teams" e))
    | Ok teams =>
        _ <- modify (fun s => set_teamsCache (<[Enterprise m := teams]> (teamsCache s)) s) ;;
        ret (Ok (<[Enterprise m := teams]> ∅))
    end
  else
    match orgs m with
    | [] => ret (Ok ∅)
    | _ => fetchOrgTeams (orgs m) ∅
    end.

(** The logins of the members, without the empty ones. *)
Definition loginsOf (members : list TeamMember) : list string :=
  filter (fun l => String.eqb l "" = false) (Login <$> members).

(** [func (m *Manager) fetchTeamMembers(orgOrEnterprise, teamSlug string)
    ([]string, error)] *)
Definition fetchTeamMembers (orgOrEnterprise teamSlug : string) : M (Result (list string)) :=
  let cacheKey := teamKeyOf orgOrEnterprise teamSlug in
  s <- get ;;
  match membersCache s !! cacheKey with
  | Some cached => ret (Ok cached)
  | None =>
      r <- (if is_enterprise
            then call (GetEnterpriseTeamMembers_ R teamSlug)
                      (EvGetEnterpriseTeamMembers teamSlug)
            else call (GetOrgTeamMembers_ R orgOrEnterprise teamSlug)
                      (EvGetOrgTeamMembers orgOrEnterprise teamSlug)) ;;
      match r with
      | Err e => ret (Err (Wrap "fetching members for team" e))
      | Ok members =>
          let usernames := loginsOf members in
          _ <- modify (fun s => set_membersCache (<[cacheKey := usernames]> (membersCache s)) s) ;;
          ret (Ok usernames)
      end
  end.

(** [func (m *Manager) costCenterForTeam(orgOrEnterprise string,
    team github.Team) (string, bool)] *)
Definition costCenterForTeam (orgOrEnterprise : string) (team : Team) : M (string * bool) :=
  let teamKey := teamKeyOf orgOrEnterprise (team_Slug team) in
  let remember (ccName : string) : M (string * bool) :=
    _ <- modify (fun s => set_ccNameCache (<[teamKey := ccName]> (ccNameCache s)) s) ;;
    ret (ccName, true) in
  s <- get ;;
  match ccNameCache s !! teamKey with
  | Some cc => ret (cc, true)
  | None =>
      if String.eqb (mode m) "manual"
      then match mappings m !! teamKey with
           | None => ret ("", false)
           | Some cc => remember cc
           end
      else if String.eqb (mode m) "auto"
      then if is_enterprise
           then remember ("[enterprise team] " ++ team_Name team)%string
           else remember ("[org team] " ++ orgOrEnterprise ++ "/" ++ team_Name team)%string
      else ret ("", false)
  end.

(** The member loop of [BuildTeamAssignments]: every member is recorded
    under the team and its final assignment is overwritten. *)
Definition assignMembers (ccName orgOrEnterprise teamSlug teamKey : string)
    (members : list string)
    (acc : gmap string UserAssignment * gmap string (list string))
  : gmap string UserAssignment * gmap string (list string) :=
  foldl (fun acc username =>
           (<[username := mkUserAssignment username ccName orgOrEnterprise teamSlug]> (fst acc),
            <[username := lookup_list (snd acc) username ++ [teamKey]]> (snd acc)))
        acc members.

(** The two nested loops of [BuildTeamAssignments] over the teams of every
    source, in the order they are visited.  [done] lists the turns that
    reached the member loop. *)
Fixpoint processTeams (todo : list (string * Team))
    (acc : gmap string UserAssignment * gmap string (list string))
    (done : list Processed)
  : M (Result (gmap string UserAssignment * gmap string (list string) * list Processed)) :=
  match todo with
  | [] => ret (Ok (acc, done))
  | (orgOrEnterprise, team) :: rest =>
      cc <- costCenterForTeam orgOrEnterprise team ;;
      if negb (snd cc) then processTeams rest acc done
      else
        r <- fetchTeamMembers orgOrEnterprise (team_Slug team) ;;
        match r with
        | Err e => ret (Err e)
        | Ok members =>
            match members with
            | [] => processTeams rest acc done
            | _ =>
                let teamKey := teamKeyOf orgOrEnterprise (team_Slug team) in
                processTeams rest
                  (assignMembers (fst cc) orgOrEnterprise (team_Slug team) teamKey members acc)
                  (done ++ [mkProcessed orgOrEnterprise (team_Slug team) (fst cc) members])
            end
        end
  end.

(** The teams in the order the nested loops visit them. *)
Definition teamsInOrder (allTeams : gmap string (list Team)) : list (string * Team) :=
  flat_map (fun src => (fun t => (fst src, t)) <$> snd src) (range ord 246 allTeams).

(** [assignments[ua.CostCenter] = append(assignments[ua.CostCenter], ua)] *)
Definition groupStep (assignments : gmap string (list UserAssignment))
    (kv : string * UserAssignment) : gmap string (list UserAssignment) :=
  let ua := snd kv in
  <[CostCenter ua := lookup_list assignments (CostCenter ua) ++ [ua]]> assignments.

(** [for _, ua := range userFinal { ... }]: the conversion to
    [costCenter -> []UserAssignment]. *)
Definition groupByCostCenter (userFinal : gmap string UserAssignment)
  : gmap string (list UserAssignment) :=
  foldl groupStep ∅ (range ord 328 userFinal).

(** [BuildTeamAssignments] up to the conversion of [userFinal]: [None]
    when no source has teams, else the final assignment of every user, the
    teams of every user and the turns that assigned members.  (The report of
    the users in several teams only logs.) *)
Definition buildUserFinal
  : M (Result (option (gmap string UserAssignment * gmap string (list string)
                       * list Processed))) :=
  r <- fetchAllTeams ;;
  match r with
  | Err e => ret (Err e)
  | Ok allTeams =>
      if (size allTeams =? 0)%nat then ret (Ok None)
      else
        r2 <- processTeams (teamsInOrder allTeams) (∅, ∅) [] ;;
        match r2 with
        | Err e => ret (Err e)
        | Ok x => ret (Ok (Some x))
        end
  end.

(** [func (m *Manager) BuildTeamAssignments() (map[string][]UserAssignment, error)];
    [Ok None] is [(nil, nil)]. *)
Definition BuildTeamAssignments : M (Result (option (gmap string (list UserAssignment)))) :=
  r <- buildUserFinal ;;
  match r with
  | Err e => ret (Err e)
  | Ok None => ret (Ok None)
  | Ok (Some x) => ret (Ok (Some (groupByCostCenter (fst (fst x)))))
  end.

(** The loop over [ccNames] in [EnsureCostCentersExist]. *)
Fixpoint ensureLoop (names : list string) (activeMap ccMap : gmap string string)
    (newlyCreated : gmap string bool) : M (gmap string string * gmap string bool) :=
  match names with
  | [] => ret (ccMap, newlyCreated)
  | name :: rest =>
      match activeMap !! name with
      | Some id => ensureLoop rest activeMap (<[name := id]> ccMap) newlyCreated
      | None =>
          r <- CreateCostCenterWithPreload name activeMap ;;
          match fst r with
          | Err _ => ensureLoop rest (snd r) (<[name := name]> ccMap) newlyCreated
          | Ok id => ensureLoop rest (snd r) (<[name := id]> ccMap) (<[id := true]> newlyCreated)
          end
      end
  end.

(** [func (m *Manager) EnsureCostCentersExist(ccNames []string)
    (map[string]string, map[string]bool, error)]: the three components, a
    nil map being [None]. *)
Definition EnsureCostCentersExist (ccNames : list string)
  : M (gmap string string * option (gmap string bool) * option Error) :=
  if negb (autoCreate m)
  then ret (foldl (fun identity n => <[n := n]> identity) ∅ ccNames, None, None)
  else
    r <- GetAllActiveCostCenters ;;
    let activeMap := match r with Err _ => ∅ | Ok active => active end in
    res <- ensureLoop ccNames activeMap ∅ ∅ ;;
    ret (fst res, Some (snd res), None).

(** [idToName[id] = name] for every entry of a name-to-id map. *)
Definition reverseMap (site : nat) (ccMap : gmap string string) : gmap string string :=
  foldl (fun idToName kv => <[snd kv := fst kv]> idToName) ∅ (range ord site ccMap).

Definition displayNameOf (idToName : gmap string string) (ccID : string) : string :=
  let n := lookup_str idToName ccID in
  if String.eqb n "" then ccID else n.

(** The loop over [m.budgetProducts] for one cost center; the result is
    [budgetsDisabled]. *)
Fixpoint budgetsForProducts (ccID ccName : string) (ps : list (string * ProductBudget))
  : M bool :=
  match ps with
  | [] => ret false
  | (product, pc) :: rest =>
      if negb (Enabled pc) then budgetsForProducts ccID ccName rest
      else
        r <- call (CreateProductBudget_ R ccID ccName product (Amount pc))
                  (EvCreateProductBudget ccID ccName product (Amount pc)) ;;
        match r with
        | BudgetUnavailable => ret true
        | _ => budgetsForProducts ccID ccName rest
        end
  end.

(** The loop over [newlyCreated] in [createBudgetsForNewCCs]. *)
Fixpoint budgetsForCCs (idToName : gmap string string) (ids : list (string * bool))
    (budgetsDisabled : bool) : M unit :=
  match ids with
  | [] => ret tt
  | (ccID, _) :: rest =>
      if budgetsDisabled then ret tt
      else
        d <- budgetsForProducts ccID (displayNameOf idToName ccID)
               (range ord 725 (budgetProducts m)) ;;
        budgetsForCCs idToName rest d
  end.

(** [func (m *Manager) createBudgetsForNewCCs(ccMap map[string]string,
    newlyCreated map[string]bool)] *)
Definition createBudgetsForNewCCs (ccMap : gmap string string)
    (newlyCreated : gmap string bool) : M unit :=
  if (size (budgetProducts m) =? 0)%nat then ret tt
  else budgetsForCCs (reverseMap 710 ccMap) (range ord 715 newlyCreated) false.

(** The members of a cost center that are not among the expected users. *)
Definition staleOf (expectedUsers currentMembers : list string) : list string :=
  let expectedSet := toSet expectedUsers in
  filter (fun member => lookup_bool expectedSet member = false) currentMembers.

(** One turn of the loop over [toCheck] in [handleUserRemoval]. *)
Definition removalStep (idToName : gmap string string)
    (results : gmap string (gmap string bool)) (entry : string * list string)
  : M (gmap string (gmap string bool)) :=
  let ccID := fst entry in
  r <- GetCostCenterMembers ccID ;;
  match r with
  | Err _ => ret results
  | Ok currentMembers =>
      match staleOf (snd entry) currentMembers with
      | [] => ret results
      | stale0 =>
          let displayName := displayNameOf idToName ccID in
          let stale := sort_Strings stale0 in
          _ <- emit (EvLog "WARN" "Users no longer in team for cost center"
                       [("cost_center", LStr displayName); ("count", LInt (len stale))]) ;;
          _ <- foldM (fun _ user =>
                        emit (EvLog "WARN" "User no longer in team"
                                [("user", LStr user); ("cost_center", LStr displayName)]))
                     stale tt ;;
          if removeUsers m
          then
            _ <- emit (EvLog "INFO" "Removing users no longer in team"
                         [("cost_center", LStr displayName); ("count", LInt (len stale))]) ;;
            rm <- RemoveUsersFromCostCenter ccID stale ;;
            ret (<[ccID := fst rm]> results)
          else
            _ <- emit (EvLog "INFO" "Full sync DISABLED -- users will remain in cost center"
                         [("cost_center", LStr displayName)]) ;;
            ret results
      end
  end.

(** [toCheck]: the expected assignments without the newly created cost
    centers. *)
Definition toCheckOf (expectedAssignments : gmap string (list string))
    (newlyCreated : option (gmap string bool)) : gmap string (list string) :=
  foldl (fun toCheck kv =>
           if lookup_bool (default ∅ newlyCreated) (fst kv) then toCheck
           else <[fst kv := snd kv]> toCheck)
        ∅ (range ord 528 expectedAssignments).

(** [func (m *Manager) handleUserRemoval(expectedAssignments map[string][]string,
    ccNameToID map[string]string, newlyCreated map[string]bool)
    map[string]map[string]bool] *)
Definition handleUserRemoval (expectedAssignments : gmap string (list string))
    (ccNameToID : gmap string string) (newlyCreated : option (gmap string bool))
  : M (gmap string (gmap string bool)) :=
  let idToName := reverseMap 521 ccNameToID in
  let toCheck := toCheckOf expectedAssignments newlyCreated in
  foldM (removalStep idToName) (range ord 546 toCheck) ∅.

(** The conversion of the assignments to identifiers, one user once per
    cost-center name. *)
Definition dedupInto (ccID : string) (userAssigns : list UserAssignment)
    (idBased : gmap string (list string)) : gmap string (list string) :=
  fst (foldl (fun acc ua =>
                if lookup_bool (snd acc) (Username ua) then acc
                else (<[ccID := lookup_list (fst acc) ccID ++ [Username ua]]> (fst acc),
                      <[Username ua := true]> (snd acc)))
             (idBased, ∅) userAssigns).

Definition idBasedOf (assignments : gmap string (list UserAssignment))
    (ccMap : gmap string string) : gmap string (list string) :=
  foldl (fun idBased kv => dedupInto (lookup_str ccMap (fst kv)) (snd kv) idBased)
        ∅ (range ord 452 assignments).

(** The merge of the removal results into the addition results. *)
Definition mergeRemoved (results removed : gmap string (gmap string bool))
  : gmap string (gmap string bool) :=
  foldl (fun results kv =>
           let base := default ∅ (results !! fst kv) in
           <[fst kv := foldl (fun inner uo => <[fst uo := snd uo]> inner) base
                             (range ord 500 (snd kv))]> results)
        results (range ord 496 removed).

(** [SyncTeamAssignments] from the conversion to identifiers on. *)
Definition syncPrepared (mode_ : string) (ignoreCurrentCC : bool)
    (assignments : gmap string (list UserAssignment))
    (ccMap : gmap string string) (newlyCreated : option (gmap string bool))
  : M (Result (option (gmap string (gmap string bool)))) :=
  let idBased := idBasedOf assignments ccMap in
  let totalUsers := foldl (fun n kv => n + len (snd kv)) 0 (range ord 465 idBased) in
  _ <- emit (EvLog "INFO" "Prepared assignments"
               [("cost_centers", LInt (len_map idBased)); ("total_users", LInt totalUsers)]) ;;
  if String.eqb mode_ "plan"
  then
    _ <- emit (EvLog "INFO" "MODE=plan: would sync the following assignments:" []) ;;
    _ <- foldM (fun _ kv =>
                  emit (EvLog "INFO" "Would assign"
                          [("cost_center", LStr (fst kv)); ("users", LInt (len (snd kv)))]))
               (range ord 474 idBased) tt ;;
    _ <- (if removeUsers m
          then emit (EvLog "INFO"
                       "Full sync mode is ENABLED -- in apply mode, users no longer in teams would be removed"
                       [])
          else ret tt) ;;
    ret (Ok None)
  else
    r <- BulkUpdateCostCenterAssignments idBased ignoreCurrentCC ;;
    match r with
    | Err e => ret (Err (Wrap "applying team assignments" e))
    | Ok results =>
        removedResults <- handleUserRemoval idBased ccMap newlyCreated ;;
        ret (Ok (Some (if removeUsers m then mergeRemoved results removedResults
                       else results)))
    end.

(** [func (m *Manager) SyncTeamAssignments(mode string, ignoreCurrentCC bool)
    (map[string]map[string]bool, error)]; [Ok None] is [(nil, nil)]. *)
Definition SyncTeamAssignments (mode_ : string) (ignoreCurrentCC : bool)
  : M (Result (option (gmap string (gmap string bool)))) :=
  r <- BuildTeamAssignments ;;
  match r with
  | Err e => ret (Err e)
  | Ok built =>
      let assignments := default ∅ built in
      if (size assignments =? 0)%nat then ret (Ok None)
      else
        let ccNames := sort_Strings (fst <$> range ord 422 assignments) in
        if String.eqb mode_ "plan"
        then
          _ <- emit (EvLog "INFO" "Plan mode: would ensure cost centers exist"
                       [("count", LInt (len ccNames))]) ;;
          syncPrepared mode_ ignoreCurrentCC assignments
            (foldl (fun ccMap n => <[n := n]> ccMap) ∅ ccNames) (Some ∅)
        else
          p <- EnsureCostCentersExist ccNames ;;
          match snd p with
          | Some e => ret (Err (Wrap "ensuring cost centers exist" e))
          | None =>
              let ccMap := fst (fst p) in
              let newlyCreated := snd (fst p) in
              _ <- (if createBudgets m && (0 <? len_map (default ∅ newlyCreated))
                    then createBudgetsForNewCCs ccMap (default ∅ newlyCreated)
                    else ret tt) ;;
              syncPrepared mode_ ignoreCurrentCC assignments ccMap newlyCreated
          end
  end.

(** The body of the loop of [GenerateSummary] over the assignments:
    [allUsers[ua.Username] = true] for every assignment of the list, and
    [ccBreakdown[ccName] = len(userAssigns)]. *)
Definition countStep (acc : gmap string bool * gmap string Z)
    (kv : string * list UserAssignment) : gmap string bool * gmap string Z :=
  (foldl (fun allUsers ua => <[Username ua := true]> allUsers) (fst acc) (snd kv),
   <[fst kv := len (snd kv)]> (snd acc)).

(** The two maps [GenerateSummary] fills while it visits the assignments. *)
Definition countUsers (assignments : gmap string (list UserAssignment))
  : gmap string bool * gmap string Z :=
  foldl countStep (∅, ∅) (range ord 637 assignments).

(** [func (m *Manager) GenerateSummary()], returning the summary or the
    error. *)
Definition GenerateSummary : M (Result Summary) :=
  r <- BuildTeamAssignments ;;
  match r with
  | Err e => ret (Err e)
  | Ok built =>
      let assignments := default ∅ built in
      s <- get ;;
      let totalTeams := foldl (fun n kv => n + len (snd kv)) 0 (range ord 630 (teamsCache s)) in
      let counted := countUsers assignments in
      ret (Ok (mkSummary (mode m) (scope m) (orgs m) totalTeams
                 (len_map assignments) (len_map (fst counted)) (snd counted)))
  end.

End WithRemote.

Arguments time_Now {W} r.
Arguments GetEnterpriseTeams_ {W} r.
Arguments GetOrgTeams_ {W} r.
Arguments GetEnterpriseTeamMembers_ {W} r.
Arguments GetOrgTeamMembers_ {W} r.
Arguments CreateProductBudget_ {W} r.
Arguments listCostCenters {W} r.
Arguments getCostCenter {W} r.
Arguments postCostCenter {W} r.
Arguments postUsers {W} r.
Arguments deleteUsers {W} r.
Arguments getMemberships {W} r.
Arguments val {W A} r.
Arguments final {W A} r.
Arguments events {W A} r.
Arguments world {W} s.
Arguments ccCache {W} s.
Arguments teamsCache {W} s.
Arguments membersCache {W} s.
Arguments ccNameCache {W} s.
Arguments mkState {W}.
Arguments ret {W A} a.
Arguments bind {W A B} m k.
Arguments foldM {W A B} f l b.
Arguments emit {W} e.
Arguments get {W}.
Arguments modify {W} f.
Arguments call {W A} f ev.
Arguments cacheGet {W} R key.
Arguments cacheSet {W} R key id name.
Arguments GetAllActiveCostCenters {W} R.
Arguments GetCostCenter {W} R id.
Arguments GetCostCenterMembers {W} R id.
Arguments findCostCenterByName {W} R name.
Arguments CreateCostCenter {W} R name.
Arguments CreateCostCenterWithPreload {W} R name activeMap.
Arguments CheckUserCostCenterMembership {W} R username.
Arguments selectUsers {W} R memberSet ignoreCurrentCC usernames results toAdd.
Arguments addBatches {W} R costCenterID bs results.
Arguments AddUsersToCostCenter {W} R costCenterID usernames ignoreCurrentCC.
Arguments BulkUpdateCostCenterAssignments {W} R ord assignments ignoreCurrentCC.
Arguments RemoveUsersFromCostCenter {W} R costCenterID usernames.
Arguments fetchOrgTeams {W} R os allTeams.
Arguments fetchAllTeams {W} R m.
Arguments fetchTeamMembers {W} R m orgOrEnterprise teamSlug.
Arguments costCenterForTeam {W} m orgOrEnterprise team.
Arguments processTeams {W} R m todo acc done.
Arguments buildUserFinal {W} R ord m.
Arguments BuildTeamAssignments {W} R ord m.
Arguments ensureLoop {W} R names activeMap ccMap newlyCreated.
Arguments EnsureCostCentersExist {W} R m ccNames.
Arguments budgetsForProducts {W} R ccID ccName ps.
Arguments budgetsForCCs {W} R ord m idToName ids budgetsDisabled.
Arguments createBudgetsForNewCCs {W} R ord m ccMap newlyCreated.
Arguments removalStep {W} R m idToName results entry.
Arguments handleUserRemoval {W} R ord m expectedAssignments ccNameToID newlyCreated.
Arguments syncPrepared {W} R ord m mode_ ignoreCurrentCC assignments ccMap newlyCreated.
Arguments SyncTeamAssignments {W} R ord m mode_ ignoreCurrentCC.
Arguments GenerateSummary {W} R ord m.
(** *** Reading a run *)

(** The answers to the requests for the detail of one cost center. *)
Definition fetches (ccID : string) (evs : list Event)
  : list (Result costCenterDetailResponse) :=
  omap (fun e => match e with
                 | EvGetCostCenter id r => if String.eqb id ccID then Some r else None
                 | _ => None
                 end) evs.

(** The user lists of the removal requests sent for one cost center. *)
Definition removals (ccID : string) (evs : list Event) : list (list string) :=
  omap (fun e => match e with
                 | EvDeleteUsers id users _ => if String.eqb id ccID then Some users else None
                 | _ => None
                 end) evs.

(** A computation that emits only events with the property [P]. *)
Definition emits {W A} (P : Event -> Prop) (c : M W A) : Prop :=
  forall s, Forall P (events (c s)).

(** An event that leaves the remote state as it is. *)
Definition quiet (e : Event) : Prop := mutating e = false.

(** The record by which plan mode reports the number of users of a cost
    center. *)
Definition wouldAssign (kv : string * list string) : Event :=
  EvLog "INFO" "Would assign"
    [("cost_center", LStr (fst kv)); ("users", LInt (len (snd kv)))].

(** The record that reports one stale user of a cost center. *)
Definition staleReport (displayName user : string) : Event :=
  EvLog "WARN" "User no longer in team"
    [("user", LStr user); ("cost_center", LStr displayName)].

(** The events of a turn of the removal loop once stale users are found:
    the report, and the removal or the note that there is none. *)
Definition staleTrace (m : Manager) (displayName ccID : string) (stale : list string)
    (removed : Result unit) : list Event :=
  EvLog "WARN" "Users no longer in team for cost center"
    [("cost_center", LStr displayName); ("count", LInt (len stale))]
  :: (staleReport displayName <$> stale)
  ++ (if removeUsers m
      then [EvLog "INFO" "Removing users no longer in team"
              [("cost_center", LStr displayName); ("count", LInt (len stale))];
            EvDeleteUsers ccID stale removed]
      else [EvLog "INFO" "Full sync DISABLED -- users will remain in cost center"
              [("cost_center", LStr displayName)]]).

(** The events of one turn of the removal loop for the cost center [ccID],
    given the answer to the request for its detail and, when a removal is
    sent, the answer to that. *)
Definition removalTrace (m : Manager) (idToName : gmap string string) (ccID : string)
    (expectedUsers : list string) (fetched : Result costCenterDetailResponse)
    (removed : Result unit) : list Event :=
  EvGetCostCenter ccID fetched ::
  match fetched with
  | Err _ => []
  | Ok detail =>
      match staleOf expectedUsers (userNames (Resources detail)) with
      | [] => []
      | stale0 =>
          staleTrace m (displayNameOf idToName ccID) ccID (sort_Strings stale0) removed
      end
  end.

Definition is_log (e : Event) : bool :=
  match e with EvLog _ _ _ => true | _ => false end.

(** All assignments of a result of [BuildTeamAssignments], whatever the key. *)
Definition allAssignments (assignments : gmap string (list UserAssignment))
  : list UserAssignment :=
  mjoin (snd <$> map_to_list assignments).

(** The sum of the counts of a per-cost-center breakdown. *)
Definition sumCounts (counts : gmap string Z) : Z :=
  map_fold (fun _ n total => n + total) 0 counts.

(** The assignment a processed team gives to one of its members. *)
Definition assignmentFrom (p : Processed) (username : string) : UserAssignment :=
  mkUserAssignment username (p_cc p) (p_org p) (p_slug p).

(** The member loop of [BuildTeamAssignments] for one processed team. *)
Definition applyProcessed (m : Manager)
    (acc : gmap string UserAssignment * gmap string (list string)) (p : Processed)
  : gmap string UserAssignment * gmap string (list string) :=
  assignMembers (p_cc p) (p_org p) (p_slug p) (teamKeyOf m (p_org p) (p_slug p))
    (p_members p) acc.

(** The last processed team that has [username] among its members. *)
Definition lastTeamOf (username : string) (done : list Processed) : option Processed :=
  last (filter (fun p => username ∈ p_members p) done).

End Engine.

(* ===================================================================== *)
(** ** Concrete runs *)
(* ===================================================================== *)

Module Fixtures.
Import GoInt Go Github Engine.

(** The map order that visits the keys as [map_to_list] lists them. *)
Definition listOrder : MapOrder :=
  mkMapOrder (fun _ V mp => map_to_list mp) (fun _ V mp => reflexivity _).

Definition teamA : Team := mkTeam "team-a" "team-a".
Definition teamB : Team := mkTeam "team-b" "team-b".

Definition existingUUID : string := "0a1b2c3d-0000-1111-2222-0123456789ab".

Definition conflictBody : string :=
  "Cost center name already in use. Existing cost center UUID: 0a1b2c3d-0000-1111-2222-0123456789ab".

(** A remote without state: one organization [org1] with the teams
    [team-a] (alice, bob) and [team-b] (bob, carol); no active cost center is
    listed; creating a cost center conflicts with an existing one; every
    cost center holds alice, bob and dave; membership lookups fail. *)
Definition demoRemote : Remote unit :=
  mkRemote unit
    (fun _ => 0)
    (fun w => (Ok [teamA; teamB], w))
    (fun org w => (if String.eqb org "org1" then Ok [teamA; teamB]
                   else Err (APIError 404 "Not Found"), w))
    (fun slug w => (Ok [], w))
    (fun org slug w =>
       (if String.eqb slug "team-a" then Ok [mkTeamMember "alice"; mkTeamMember "bob"]
        else if String.eqb slug "team-b" then Ok [mkTeamMember "bob"; mkTeamMember "carol"]
        else Ok [], w))
    (fun _ _ _ _ w => (BudgetDone true, w))
    (fun w => (Ok [], w))
    (fun id w => (Ok (mkDetail id "" "active"
                        [mkResource "User" "alice"; mkResource "User" "bob";
                         mkResource "User" "dave"]), w))
    (fun name w => (Err (APIError 409 conflictBody), w))
    (fun _ _ w => (Ok tt, w))
    (fun _ _ w => (Ok tt, w))
    (fun _ w => (Err (Other "GET memberships: i/o timeout"), w)).

(** An organization-scoped manager in auto mode. *)
Definition demoManager (autoCreate_ removeUsers_ : bool) : Manager :=
  mkManager "ent" "organization" "auto" ["org1"] autoCreate_ ∅ removeUsers_ false ∅.

(** A fresh manager and a client without cache. *)
Definition freshState : State unit := mkState tt None ∅ ∅ ∅.

End Fixtures.

(* ===================================================================== *)
(** ** internal/cache: statistics, clearing and clean-up *)
(* ===================================================================== *)

Module CacheOps.
Import GoInt Go Cache.

(** [type Stats struct] *)
Record Stats := mkStats {
  TotalEntries : Z;
  ExpiredEntries : Z;
  ValidEntries : Z;
  FilePath : string;
  FileSizeBytes : Z
}.

(** The body of the loop of [GetStats]: [s.ExpiredEntries++] or
    [s.ValidEntries++].  Every call of [IsExpired] reads the clock anew:
    [examinedAt key] is what the clock reads when the entry of [key] is
    looked at. *)
Definition statStep (examinedAt : string -> Z) (s : Z * Z) (kv : string * Entry) : Z * Z :=
  if IsExpired (examinedAt (fst kv)) (snd kv) then (fst s + 1, snd s)
  else (fst s, snd s + 1).

(** [func (c *Cache) GetStats() Stats].  [filePath] is [c.filePath] and
    [stat] the size [os.Stat] reports for it, [None] when it fails. *)
Definition GetStats (ord : MapOrder) (examinedAt : string -> Z) (filePath : string)
    (stat : option Z) (c : Cache) : Stats :=
  let counts := foldl (statStep examinedAt) (0, 0) (range ord 200 (Entries c)) in
  mkStats (Z.of_nat (size (Entries c))) (fst counts) (snd counts) filePath (default 0 stat).

(** What [os.Remove] answers. *)
Inductive RemoveResult :=
| Removed
| NotExist
| RemoveFailed (e : Error).

(** [func (c *Cache) Clear() error], with the cache as the call leaves it. *)
Definition Clear (removed : RemoveResult) (c : Cache) : option Error * Cache :=
  (match removed with
   | RemoveFailed e => Some (Wrap "removing cache file" e)
   | _ => None
   end,
   mkCache (ttlHours c) ∅).

(** The body of the loop of [CleanupExpired]: [delete(c.data.Entries, key);
    removed++] for an expired entry.  Only the entry at hand is deleted, so
    the loop reaches every entry the table held when it started. *)
Definition cleanupStep (examinedAt : string -> Z) (acc : gmap string Entry * Z)
    (kv : string * Entry) : gmap string Entry * Z :=
  if IsExpired (examinedAt (fst kv)) (snd kv) then (delete (fst kv) (fst acc), snd acc + 1)
  else acc.

(** [func (c *Cache) CleanupExpired() (int, error)], with the cache as the
    call leaves it.  [save] is the outcome of writing a table to disk. *)
Definition CleanupExpired (ord : MapOrder) (examinedAt : string -> Z)
    (save : Cache -> option Error) (c : Cache) : (Z * option Error) * Cache :=
  let r := foldl (cleanupStep examinedAt) (Entries c, 0) (range ord 236 (Entries c)) in
  let c' := mkCache (ttlHours c) (fst r) in
  ((snd r, if 0 <? snd r then save c' else None), c').

(** Whether [Get] finds a valid entry. *)
Definition hits (now : Z) (key : string) (c : Cache) : bool := snd (fst (Get now key c)).

End CacheOps.

(* ===================================================================== *)
(** ** internal/github: one request *)
(* ===================================================================== *)

Module Transport.
Import Go CallLayer.

(** What happens to one request inside [do]: the body cannot be encoded,
    the request cannot be built, the round trip fails, or an answer comes.
    [msg] is the text of the underlying error. *)
Inductive Attempt :=
| MarshalFails (msg : string)
| NewRequestFails (msg : string)
| SendFails (msg : string)
| Answered (resp : Response).

(** [func (c *Client) do(method, url string, body any)]: the answer, or the
    error wrapped by [fmt.Errorf], of which [doJSON] reads the text. *)
Definition do (method url : string) (a : Attempt) : Outcome :=
  match a with
  | MarshalFails msg => DoErr ("marshalling request body: " ++ msg)
  | NewRequestFails msg => DoErr ("creating request: " ++ msg)
  | SendFails msg => DoErr (method ++ " " ++ url ++ ": " ++ msg)
  | Answered resp => DoResp resp
  end.

End Transport.

(* ===================================================================== *)
(** ** internal/budgets: the budget manager *)
(* ===================================================================== *)

Module Budgets.
Import Go Github Engine.

(** [budgets.Manager]: the configured products and the flag that records
    that the budgets interface is not available. *)
Record Manager := mkManager {
  products : gmap string ProductBudget;
  unavailable : bool
}.

(** [func NewManager(client, logger, products) *Manager] *)
Definition NewManager (products_ : gmap string ProductBudget) : Manager :=
  mkManager products_ false.

(** [func (m *Manager) IsAvailable() bool] *)
Definition IsAvailable (m : Manager) : bool := negb (unavailable m).

Section WithRemote.

Context {W : Type} (R : Remote W) (ord : MapOrder).

(** [func (m *Manager) EnsureBudgetsForCostCenter(ccID, ccName string)],
    returning the manager as the call leaves it.  The loop over
    [m.products] is the loop [budgetsForProducts] of the teams manager. *)
Definition EnsureBudgetsForCostCenter (ccID ccName : string) (m : Manager) : M W Manager :=
  if unavailable m then ret m
  else
    bind (budgetsForProducts R ccID ccName (range ord 44 (products m)))
         (fun stopped => ret (if stopped : bool then mkManager (products m) true else m)).

(** A caller that asks for the budgets of several cost centers in turn. *)
Definition EnsureBudgetsForAll (ccs : list (string * string)) (m : Manager) : M W Manager :=
  foldM (fun m cc => EnsureBudgetsForCostCenter (fst cc) (snd cc) m) ccs m.

End WithRemote.

End Budgets.

(* ===================================================================== *)
(** ** cmd: the report of the assignment results *)
(* ===================================================================== *)

Module Cmd.
Import Go Engine.

Record Totals := mkTotals {
  totalAttempted : Z;
  totalSuccessful : Z;
  totalFailed : Z
}.

Section Log.

Variable ord : MapOrder.

(** [for _, ok := range userResults { if ok { ccSuccessful++ } }] *)
Definition countSuccessful (userResults : gmap string bool) : Z :=
  foldl (fun n kv => if snd kv : bool then n + 1 else n) 0 (range ord 407 userResults).

(** [for username, ok := range userResults { if !ok { failedUsers =
    append(failedUsers, username) } }] *)
Definition failedUsersOf (userResults : gmap string bool) : list string :=
  foldl (fun failedUsers kv => if snd kv : bool then failedUsers else failedUsers ++ [fst kv])
        [] (range ord 424 userResults).

(** The body of the loop of [logAssignmentResults] over the cost centers:
    the totals and the records logged so far. *)
Definition logStep (acc : Totals * list Event) (kv : string * gmap string bool)
  : Totals * list Event :=
  let ccID := fst kv in
  let userResults := snd kv in
  let ccSuccessful := countSuccessful userResults in
  let ccFailed := len_map userResults - ccSuccessful in
  (mkTotals (totalAttempted (fst acc) + len_map userResults)
            (totalSuccessful (fst acc) + ccSuccessful)
            (totalFailed (fst acc) + ccFailed),
   snd acc ++
   (if 0 <? ccFailed
    then [EvLog "WARN" "Cost center partial success"
            [("cost_center_id", LStr ccID); ("successful", LInt ccSuccessful);
             ("total", LInt (len_map userResults))];
          EvLog "ERROR" "Failed users"
            [("cost_center_id", LStr ccID);
             ("users", LStr (String.concat ", " (failedUsersOf userResults)))]]
    else [EvLog "INFO" "Cost center all successful"
            [("cost_center_id", LStr ccID); ("count", LInt ccSuccessful)]])).

(** [func logAssignmentResults(results map[string]map[string]bool,
    logger *slog.Logger)]: the records it logs, in order. *)
Definition logAssignmentResults (results : gmap string (gmap string bool)) : list Event :=
  let r := foldl logStep (mkTotals 0 0 0, []) (range ord 405 results) in
  snd r ++
  [if 0 <? totalFailed (fst r)
   then EvLog "WARN" "FINAL RESULT"
          [("successful", LInt (totalSuccessful (fst r)));
           ("total", LInt (totalAttempted (fst r)));
           ("failed", LInt (totalFailed (fst r)))]
   else EvLog "INFO" "FINAL RESULT: All users successfully assigned"
          [("count", LInt (totalSuccessful (fst r)))]].

End Log.

(** All statuses of a result, whatever the cost center and the user. *)
Definition statuses (results : gmap string (gmap string bool)) : list bool :=
  mjoin ((fun kv => (map_to_list (snd kv)).*2) <$> map_to_list results).

End Cmd.

(* ===================================================================== *)
(** ** internal/repository: matching repositories by custom property *)
(* ===================================================================== *)

Module Repository.
Import Go.

(** An element of a JSON array decoded into [[]any]: a string or anything
    else. *)
Inductive Item :=
| IString (s : string)
| IOther.

(** The value of a custom property, decoded into [any]: a string, an
    array, or anything else. *)
Inductive PropValue :=
| VString (s : string)
| VList (items : list Item)
| VOther.

(** [github.Property] and [github.RepoProperties]: the fields the
    repository manager and its tests use. *)
Record Property := mkProperty {
  PropertyName : string;
  Value : PropValue
}.

Record RepoProperties := mkRepoProperties {
  RepositoryName : string;
  RepositoryFullName : string;
  Properties : list Property
}.

(** The loop of [matchesValue] over an array value. *)
Fixpoint anyAllowed (items : list Item) (allowed : gmap string bool) : bool :=
  match items with
  | [] => false
  | IString s :: rest => if lookup_bool allowed s then true else anyAllowed rest allowed
  | IOther :: rest => anyAllowed rest allowed
  end.

(** [func matchesValue(val any, allowed map[string]bool) bool] *)
Definition matchesValue (val : PropValue) (allowed : gmap string bool) : bool :=
  match val with
  | VString v => lookup_bool allowed v
  | VList v => anyAllowed v allowed
  | VOther => false
  end.

(** The inner loop of [findMatchingRepos] over the properties of one
    repository: [true] when it reaches [matched = append(matched, repo); break]. *)
Fixpoint matchesRepo (props : list Property) (propertyName : string)
    (valueSet : gmap string bool) : bool :=
  match props with
  | [] => false
  | prop :: rest =>
      if negb (String.eqb (PropertyName prop) propertyName)
      then matchesRepo rest propertyName valueSet
      else if matchesValue (Value prop) valueSet then true
      else matchesRepo rest propertyName valueSet
  end.

(** [func findMatchingRepos(repos []github.RepoProperties, propertyName string,
    propertyValues []string) []github.RepoProperties] *)
Definition findMatchingRepos (repos : list RepoProperties) (propertyName : string)
    (propertyValues : list string) : list RepoProperties :=
  let valueSet := foldl (fun vs v => <[v := true]> vs) (∅ : gmap string bool) propertyValues in
  foldl (fun matched repo =>
           if matchesRepo (Properties repo) propertyName valueSet
           then matched ++ [repo] else matched)
        [] repos.

(** A property value that names one of the given values. *)
Definition namesOneOf (val : PropValue) (values : list string) : Prop :=
  match val with
  | VString v => v ∈ values
  | VList items => exists s, IString s ∈ items /\ s ∈ values
  | VOther => False
  end.

End Repository.

(* ===================================================================== *)
(** * Properties *)
(* ===================================================================== *)

(** ** Integers and durations *)

Section GoIntFacts.
Import GoInt.

Lemma wrap64_id z : in_int64 z -> wrap64 z = z.
Proof.
  unfold in_int64, wrap64, minInt64, maxInt64. intros H.
  rewrite Z.mod_small; lia.
Qed.

Lemma sat64_id z : in_int64 z -> sat64 z = z.
Proof. unfold in_int64, sat64. lia. Qed.

(** Saturation does not change a comparison with a duration below the
    largest one. *)
Lemma sat64_gt z d : minInt64 <= d < maxInt64 -> (d <? sat64 z) = (d <? z).
Proof.
  unfold sat64. intros H.
  destruct (Z.ltb_spec d z), (Z.ltb_spec d (Z.max minInt64 (Z.min maxInt64 z)));
    try reflexivity; lia.
Qed.

End GoIntFacts.

(** ** The cache *)

Section CacheFacts.
Import GoInt Cache.

Lemma ttl_no_overflow h :
  - maxTTLHours <= h <= maxTTLHours -> wrap64 (h * Hour) = h * Hour.
Proof.
  unfold maxTTLHours, Hour, Second. intros H.
  apply wrap64_id. unfold in_int64, minInt64, maxInt64. lia.
Qed.

(** Within the range of a [Duration], an entry is expired exactly when more
    than its hours have passed. *)
Lemma IsExpired_spec now e :
  - maxTTLHours <= TTLHours e <= maxTTLHours ->
  IsExpired now e = (TTLHours e * Hour <? now - CachedAt e).
Proof.
  intros H. unfold IsExpired, time_Since. cbv zeta.
  rewrite (ttl_no_overflow _ H). apply sat64_gt.
  unfold minInt64, maxInt64, maxTTLHours, Hour, Second in *. lia.
Qed.

Lemma Get_pure now key c : snd (Get now key c) = c.
Proof. unfold Get. destruct (Entries c !! key) as [e|]; [destruct (IsExpired now e)|]; reflexivity. Qed.




End CacheFacts.

(** ** The call layer *)

Section CallLayerFacts.
Import GoInt Go CallLayer.

Context {Dest : Type} (decode : Body -> option Dest).

Lemma retryable_spec s :
  lookup_bool retryableStatusCodes s
  = ((s =? 429) || (s =? 500) || (s =? 502) || (s =? 503) || (s =? 504)).
Proof.
  unfold lookup_bool, retryableStatusCodes.
  destruct (Z.eqb_spec s 429) as [->|H1]; [reflexivity|].
  rewrite lookup_insert_ne by congruence.
  destruct (Z.eqb_spec s 500) as [->|H2]; [reflexivity|].
  rewrite lookup_insert_ne by congruence.
  destruct (Z.eqb_spec s 502) as [->|H3]; [reflexivity|].
  rewrite lookup_insert_ne by congruence.
  destruct (Z.eqb_spec s 503) as [->|H4]; [reflexivity|].
  rewrite lookup_insert_ne by congruence.
  destruct (Z.eqb_spec s 504) as [->|H5]; [reflexivity|].
  rewrite lookup_insert_ne by congruence.
  reflexivity.
Qed.

Lemma backoff_exact a : 0 <= a <= 1 -> backoff a = retryBackoffBase * 2 ^ a.
Proof.
  intros H. unfold backoff. apply wrap64_id.
  assert (Ha : a = 0 \/ a = 1) by lia.
  destruct Ha as [-> | ->]; vm_compute; split; discriminate.
Qed.

Lemma substring_length n s : (String.length (String.substring 0 n s) <= n)%nat.
Proof.
  revert s. induction n as [|n IH]; intros [|c s]; cbn; try lia.
  specialize (IH s). lia.
Qed.

Lemma readBody_length resp : (String.length (readBody resp) <= 4096)%nat.
Proof.
  unfold readBody. destruct (RespBody resp) as [|data broken].
  - cbn. lia.
  - destruct (broken && _).
    + apply Nat.leb_le. vm_compute. reflexivity.
    + apply substring_length.
Qed.

Lemma ParseInt_empty : ParseInt "" = None.
Proof. reflexivity. Qed.

(** The wait after a 429, by the reset header. *)
Lemma rateLimitWait_spec now resp :
  match ParseInt (RateLimitReset resp) with
  | Some reset =>
      minInt64 <= reset * Second - now <= maxInt64 - Second ->
      rateLimitWait now resp
      = if reset * Second + Second - now <=? 0 then Second
        else reset * Second + Second - now
  | None => rateLimitWait now resp = rateLimitFallback
  end.
Proof.
  unfold rateLimitWait. cbv zeta.
  destruct (String.eqb_spec (RateLimitReset resp) "") as [->|Hne].
  - rewrite ParseInt_empty. reflexivity.
  - destruct (ParseInt (RateLimitReset resp)) as [reset|]; [|reflexivity].
    intros Hr. unfold time_Until.
    rewrite sat64_id by (unfold in_int64, minInt64, maxInt64, Second in *; lia).
    rewrite wrap64_id by (unfold in_int64, minInt64, maxInt64, Second in *; lia).
    replace (reset * Second - now + Second) with (reset * Second + Second - now) by lia.
    reflexivity.
Qed.

Lemma loop_unfold wd a st script :
  a < maxRetries ->
  doJSON_loop Dest decode wd a (st :: script)
  = match turn Dest decode wd a st with
    | Return r => finish Dest r
    | WaitRateLimit d =>
        sleep_then Dest (SleepRateLimit d) (doJSON_loop Dest decode wd a script)
    | WaitBackoff d =>
        sleep_then Dest (SleepBackoff d) (doJSON_loop Dest decode wd (a + 1) script)
    end.
Proof.
  intros H. cbn [doJSON_loop].
  destruct (Z.ltb_spec a maxRetries); [reflexivity | lia].
Qed.

Lemma loop_exhausted wd a script :
  maxRetries <= a -> doJSON_loop Dest decode wd a script = mkRun (Some RetExhausted) [] 0.
Proof.
  intros H. destruct script; cbn [doJSON_loop];
    destruct (Z.ltb_spec a maxRetries); try lia; reflexivity.
Qed.

Lemma loop_nil wd a :
  a < maxRetries -> doJSON_loop Dest decode wd a [] = mkRun None [] 0.
Proof.
  intros H. cbn [doJSON_loop]. destruct (Z.ltb_spec a maxRetries); [reflexivity | lia].
Qed.

(** A 429 is answered by the rate-limit wait at any value of the counter. *)
Lemma turn_rate_limited wd a st resp :
  outcome st = DoResp resp -> StatusCode resp = 429 ->
  turn Dest decode wd a st = WaitRateLimit (rateLimitWait (clock st) resp).
Proof.
  intros Ho Hs. unfold turn. rewrite Ho, Hs. reflexivity.
Qed.

Lemma rate_limited_inv st :
  rate_limited st = true ->
  exists resp, outcome st = DoResp resp /\ StatusCode resp = 429.
Proof.
  unfold rate_limited. destruct (outcome st) as [msg|resp]; [discriminate|].
  intros H. exists resp. split; [reflexivity|]. apply Z.eqb_eq. exact H.
Qed.

Lemma turn_of_rate_limited wd a st :
  rate_limited st = true ->
  exists d, turn Dest decode wd a st = WaitRateLimit d /\ rate_limit_sleep st = SleepRateLimit d.
Proof.
  intros H. destruct (rate_limited_inv st H) as (resp & Ho & Hs).
  exists (rateLimitWait (clock st) resp). split.
  - apply turn_rate_limited; assumption.
  - unfold rate_limit_sleep. rewrite Ho. reflexivity.
Qed.

(** What a turn that goes on tells about the turn and the counter. *)
Lemma turn_WaitRateLimit_inv wd a st d :
  turn Dest decode wd a st = WaitRateLimit d -> rate_limited st = true.
Proof.
  unfold turn, rate_limited. destruct (outcome st) as [msg|resp].
  - destruct (isTransient msg && _); discriminate.
  - destruct ((200 <=? StatusCode resp) && _).
    + destruct wd; [destruct (decode _)|]; discriminate.
    + destruct (StatusCode resp =? 429); [reflexivity|].
      destruct (lookup_bool _ _ && _); discriminate.
Qed.

Lemma turn_WaitBackoff_inv wd a st d :
  turn Dest decode wd a st = WaitBackoff d ->
  a < maxRetries - 1 /\ d = backoff a /\ rate_limited st = false.
Proof.
  unfold turn, rate_limited. destruct (outcome st) as [msg|resp].
  - destruct (isTransient msg); cbn [andb]; [|discriminate].
    destruct (Z.ltb_spec a (maxRetries - 1)); [|discriminate].
    intros [= <-]. auto.
  - destruct ((200 <=? StatusCode resp) && _).
    + destruct wd; [destruct (decode _)|]; discriminate.
    + destruct (StatusCode resp =? 429); [discriminate|].
      destruct (lookup_bool _ _); cbn [andb]; [|discriminate].
      destruct (Z.ltb_spec a (maxRetries - 1)); [|discriminate].
      intros [= <-]. auto.
Qed.

Lemma turn_Return_inv wd a st r :
  turn Dest decode wd a st = Return r -> rate_limited st = false /\ r <> RetExhausted.
Proof.
  unfold turn, rate_limited. destruct (outcome st) as [msg|resp].
  - destruct (isTransient msg && _); [discriminate|]. intros [= <-]. split; [reflexivity|discriminate].
  - destruct ((200 <=? StatusCode resp) && (StatusCode resp <? 300)) eqn:H2xx.
    + assert ((StatusCode resp =? 429) = false) as ->.
      { apply Z.eqb_neq. intros E. rewrite E in H2xx. discriminate. }
      destruct wd; [destruct (decode _)|]; intros [= <-]; split; try reflexivity; discriminate.
    + destruct (StatusCode resp =? 429); [discriminate|].
      destruct (lookup_bool _ _ && _); [discriminate|].
      intros [= <-]. split; [reflexivity|discriminate].
Qed.

(** A block of 429 answers leaves the counter where it was. *)
Lemma loop_rate_limited wd a limited rest :
  a < maxRetries ->
  Forall (fun st => rate_limited st = true) limited ->
  returned (doJSON_loop Dest decode wd a (limited ++ rest))
  = returned (doJSON_loop Dest decode wd a rest)
  /\ sleeps (doJSON_loop Dest decode wd a (limited ++ rest))
     = (rate_limit_sleep <$> limited) ++ sleeps (doJSON_loop Dest decode wd a rest)
  /\ calls (doJSON_loop Dest decode wd a (limited ++ rest))
     = (length limited + calls (doJSON_loop Dest decode wd a rest))%nat.
Proof.
  intros Ha. induction 1 as [|st limited Hst _ IH]; [auto|].
  destruct IH as (IH1 & IH2 & IH3).
  destruct (turn_of_rate_limited wd a st Hst) as (d & Hturn & Hsleep).
  cbn [app]. rewrite loop_unfold, Hturn by exact Ha. cbn.
  rewrite IH1, IH2, IH3, Hsleep. auto.
Qed.

Lemma backoffsFrom_step a :
  a < maxRetries - 1 -> backoffsFrom a = SleepBackoff (backoff a) :: backoffsFrom (a + 1).
Proof.
  intros H. unfold backoffsFrom. rewrite seqZ_cons by lia. cbn [fmap list_fmap].
  do 3 f_equal; lia.
Qed.

Lemma loop_budget wd script : forall a,
  0 <= a <= maxRetries ->
  (calls (doJSON_loop Dest decode wd a script)
   <= length (filter (fun s => is_rate_limit_sleep s = true)
                     (sleeps (doJSON_loop Dest decode wd a script)))
      + Z.to_nat (maxRetries - a))%nat
  /\ filter (fun s => is_backoff s = true) (sleeps (doJSON_loop Dest decode wd a script))
     `prefix_of` backoffsFrom a.
Proof.
  induction script as [|st script IH]; intros a Ha.
  - destruct (Z.lt_ge_cases a maxRetries) as [Hlt|Hge].
    + rewrite loop_nil by exact Hlt. cbn. split; [lia | apply prefix_nil].
    + rewrite loop_exhausted by exact Hge. cbn. split; [lia | apply prefix_nil].
  - destruct (Z.lt_ge_cases a maxRetries) as [Hlt|Hge].
    2:{ rewrite loop_exhausted by exact Hge. cbn. split; [lia | apply prefix_nil]. }
    rewrite loop_unfold by exact Hlt.
    destruct (turn Dest decode wd a st) as [r|d|d] eqn:Hturn.
    + unfold finish. cbn [calls sleeps]. rewrite !filter_nil. cbn [length].
      split; [unfold maxRetries in *; lia | apply prefix_nil].
    + destruct (IH a Ha) as [IHc IHp]. cbn [sleep_then calls sleeps].
      rewrite filter_cons_True by reflexivity.
      rewrite filter_cons_False by (cbn; congruence).
      cbn [length]. split; [lia | exact IHp].
    + apply turn_WaitBackoff_inv in Hturn as (Hlt2 & -> & _).
      destruct (IH (a + 1)) as [IHc IHp]; [unfold maxRetries in *; lia|].
      cbn [sleep_then calls sleeps].
      rewrite filter_cons_False by (cbn; congruence).
      rewrite filter_cons_True by reflexivity.
      rewrite backoffsFrom_step by exact Hlt2. split.
      * replace (Z.to_nat (maxRetries - a)) with (S (Z.to_nat (maxRetries - (a + 1))))
          by (unfold maxRetries in *; lia). lia.
      * apply prefix_cons. exact IHp.
Qed.

Lemma loop_not_exhausted wd script : forall a,
  a < maxRetries -> returned (doJSON_loop Dest decode wd a script) <> Some RetExhausted.
Proof.
  induction script as [|st script IH]; intros a Ha.
  - rewrite loop_nil by exact Ha. discriminate.
  - rewrite loop_unfold by exact Ha.
    destruct (turn Dest decode wd a st) as [r|d|d] eqn:Hturn; cbn.
    + apply turn_Return_inv in Hturn as [_ Hr]. congruence.
    + apply IH. exact Ha.
    + apply turn_WaitBackoff_inv in Hturn as (Hlt2 & _ & _). apply IH. lia.
Qed.

Lemma loop_returns wd script : forall a,
  0 <= a <= maxRetries ->
  (Z.to_nat (maxRetries - a) <= length (filter (fun st => rate_limited st = false) script))%nat ->
  returned (doJSON_loop Dest decode wd a script) <> None.
Proof.
  induction script as [|st script IH]; intros a Ha Hcount.
  - cbn in Hcount. rewrite loop_exhausted by lia. discriminate.
  - destruct (Z.lt_ge_cases a maxRetries) as [Hlt|Hge].
    2:{ rewrite loop_exhausted by exact Hge. discriminate. }
    rewrite loop_unfold by exact Hlt.
    destruct (turn Dest decode wd a st) as [r|d|d] eqn:Hturn; cbn.
    + discriminate.
    + apply turn_WaitRateLimit_inv in Hturn.
      rewrite filter_cons_False in Hcount by congruence.
      apply IH; assumption.
    + apply turn_WaitBackoff_inv in Hturn as (Hlt2 & _ & Hrl).
      rewrite filter_cons_True in Hcount by exact Hrl. cbn in Hcount.
      apply IH; [lia|]. unfold maxRetries in *. lia.
Qed.

End CallLayerFacts.

Section CallLayerClaims.
Import GoInt Go CallLayer.

(** C5, as stated, at a reset time that has passed: with the clock at 100 s
    and a reset header of 50, the wait is one second and the loop wakes at
    101 s, not at 51 s. *)
Lemma rateLimitWait_past_reset_counterexample :
  ~ (forall now resp reset,
        ParseInt (RateLimitReset resp) = Some reset ->
        now + rateLimitWait now resp = reset * Second + Second).
Proof.
  intros H.
  specialize (H (100 * Second) (mkResponse 429 "50" NoBody) 50 eq_refl).
  vm_compute in H. discriminate H.
Qed.

(** C5 (amended).  A 429 answer makes the loop sleep for [rateLimitWait] and
    go on with the counter unchanged: when the reset header parses to a time
    [reset] (within the range of a [Duration] from now), the sleep lasts
    until [reset + 1s] if that lies ahead and one second if it does not; when
    the header is absent or does not parse, it lasts 60 seconds.  A block of
    429 answers is followed by the same run as without it, and a script of
    429 answers alone never makes the loop return. *)
Theorem rate_limit_waits_keep_the_budget
    {Dest : Type} (decode : Body -> option Dest)
    (wantDest : bool) (attempt : Z) (limited rest : list Step) :
  0 <= attempt < maxRetries ->
  Forall (fun st => rate_limited st = true) limited ->
  (forall st, In st limited ->
     exists resp,
       outcome st = DoResp resp
       /\ turn Dest decode wantDest attempt st = WaitRateLimit (rateLimitWait (clock st) resp)
       /\ match ParseInt (RateLimitReset resp) with
          | Some reset =>
              minInt64 <= reset * Second - clock st <= maxInt64 - Second ->
              rateLimitWait (clock st) resp
              = if reset * Second + Second - clock st <=? 0 then Second
                else reset * Second + Second - clock st
          | None => rateLimitWait (clock st) resp = 60 * Second
          end)
  /\ returned (doJSON_loop Dest decode wantDest attempt (limited ++ rest))
     = returned (doJSON_loop Dest decode wantDest attempt rest)
  /\ sleeps (doJSON_loop Dest decode wantDest attempt (limited ++ rest))
     = (rate_limit_sleep <$> limited)
       ++ sleeps (doJSON_loop Dest decode wantDest attempt rest)
  /\ attempts (doJSON_loop Dest decode wantDest attempt (limited ++ rest))
     = attempts (doJSON_loop Dest decode wantDest attempt rest)
  /\ returned (doJSON_loop Dest decode wantDest attempt limited) = None.
Proof.
  intros Ha Hlim.
  destruct (loop_rate_limited decode wantDest attempt limited rest (proj2 Ha) Hlim)
    as (Hret & Hsl & Hcalls).
  split; [|split; [exact Hret | split; [exact Hsl | split]]].
  - intros st Hin.
    rewrite Forall_forall in Hlim. apply list_elem_of_In in Hin.
    destruct (rate_limited_inv st (Hlim st Hin)) as (resp & Ho & Hs).
    exists resp. split; [exact Ho | split].
    + apply turn_rate_limited; assumption.
    + apply rateLimitWait_spec.
  - unfold attempts. rewrite Hcalls, Hsl, filter_app, length_app.
    assert (Hall : length (filter (fun s => is_rate_limit_sleep s = true)
                             (rate_limit_sleep <$> limited)) = length limited).
    { clear. induction limited as [|st l IH]; [reflexivity|].
      cbn [fmap list_fmap]. rewrite filter_cons_True.
      - cbn [length]. f_equal. exact IH.
      - unfold rate_limit_sleep. destruct (outcome st); reflexivity. }
    rewrite Hall. lia.
  - destruct (loop_rate_limited decode wantDest attempt limited [] (proj2 Ha) Hlim)
      as (Hret0 & _ & _).
    rewrite app_nil_r in Hret0. rewrite Hret0, loop_nil by apply Ha. reflexivity.
Qed.

(** The theorem on the last attempt: a 429 with a reset two seconds ahead,
    a 429 without the header, then a 200. *)
Lemma rate_limit_waits_keep_the_budget_witness :
  sleeps (doJSON_loop unit (fun _ => Some tt) false 2
            ([mkStep (DoResp (mkResponse 429 "102" NoBody)) (100 * Second);
              mkStep (DoResp (mkResponse 429 "" NoBody)) (103 * Second)]
             ++ [mkStep (DoResp (mkResponse 200 "" NoBody)) (163 * Second)]))
  = [SleepRateLimit (3 * Second); SleepRateLimit (60 * Second)]
  /\ returned (doJSON_loop unit (fun _ => Some tt) false 2
                 ([mkStep (DoResp (mkResponse 429 "102" NoBody)) (100 * Second);
                   mkStep (DoResp (mkResponse 429 "" NoBody)) (103 * Second)]
                  ++ [mkStep (DoResp (mkResponse 200 "" NoBody)) (163 * Second)]))
     = Some (RetOK (mkResponse 200 "" NoBody) None).
Proof.
  assert (Ha : 0 <= 2 < maxRetries) by (vm_compute; split; [discriminate | reflexivity]).
  assert (Hlim : Forall (fun st => rate_limited st = true)
                   [mkStep (DoResp (mkResponse 429 "102" NoBody)) (100 * Second);
                    mkStep (DoResp (mkResponse 429 "" NoBody)) (103 * Second)])
    by (repeat constructor).
  destruct (rate_limit_waits_keep_the_budget (fun _ => Some tt) false 2 _
              [mkStep (DoResp (mkResponse 200 "" NoBody)) (163 * Second)] Ha Hlim)
    as (_ & Hret & Hsl & _).
  split.
  - rewrite Hsl. vm_compute. reflexivity.
  - rewrite Hret. vm_compute. reflexivity.
Defined.


End CallLayerClaims.

(** ** Runs of the client and of the manager *)

Section RunFacts.
Import GoInt Go Github Engine.

Context {W : Type}.

Lemma run_bind {A B} (c : M W A) (k : A -> M W B) s :
  bind c k s
  = ((val (k (val (c s)) (final (c s))), final (k (val (c s)) (final (c s)))),
     events (c s) ++ events (k (val (c s)) (final (c s)))).
Proof.
  unfold bind, val, final, events.
  destruct (c s) as [[a s1] e1]. cbn. destruct (k a s1) as [[b s2] e2]. reflexivity.
Qed.

Lemma val_bind {A B} (c : M W A) (k : A -> M W B) s :
  val (bind c k s) = val (k (val (c s)) (final (c s))).
Proof. rewrite run_bind. reflexivity. Qed.

Lemma final_bind {A B} (c : M W A) (k : A -> M W B) s :
  final (bind c k s) = final (k (val (c s)) (final (c s))).
Proof. rewrite run_bind. reflexivity. Qed.

Lemma events_bind {A B} (c : M W A) (k : A -> M W B) s :
  events (bind c k s) = events (c s) ++ events (k (val (c s)) (final (c s))).
Proof. rewrite run_bind. reflexivity. Qed.

Lemma events_call {A} (f : W -> A * W) (ev : A -> Event) s :
  events (call f ev s) = [ev (fst (f (world s)))]
  /\ val (call f ev s) = fst (f (world s)).
Proof. unfold call, events, val. destruct (f (world s)). auto. Qed.

Lemma events_foldM_emit {A} (f : A -> Event) (l : list A) (s : State W) :
  events (foldM (fun _ a => emit (f a)) l tt s) = f <$> l
  /\ final (foldM (fun _ a => emit (f a)) l tt s) = s.
Proof.
  revert s. induction l as [|a l IH]; intros s; [auto|].
  cbn [foldM]. rewrite events_bind, final_bind. cbn.
  destruct (IH s) as [-> ->]. auto.
Qed.

(** *** Runs that emit only events of one kind *)

Lemma emits_ret {A} P (a : A) : emits P (ret (W:=W) a).
Proof. intros s. constructor. Qed.

Lemma emits_bind {A B} P (c : M W A) (k : A -> M W B) :
  emits P c -> (forall a, emits P (k a)) -> emits P (bind c k).
Proof.
  intros Hc Hk s. rewrite events_bind. apply Forall_app. split; [apply Hc | apply Hk].
Qed.

Lemma emits_call {A} P (f : W -> A * W) (ev : A -> Event) :
  (forall a, P (ev a)) -> emits P (call f ev).
Proof.
  intros H s. destruct (events_call f ev s) as [-> _]. constructor; [apply H | constructor].
Qed.

Lemma emits_emit P e : P e -> emits P (emit (W:=W) e).
Proof. intros H s. cbn. constructor; [exact H | constructor]. Qed.

Lemma emits_foldM {A B} P (f : B -> A -> M W B) l b :
  (forall b a, emits P (f b a)) -> emits P (foldM f l b).
Proof.
  intros Hf. revert b. induction l as [|a l IH]; intros b; cbn [foldM].
  - apply emits_ret.
  - apply emits_bind; [apply Hf | intros b'; apply IH].
Qed.

End RunFacts.

(** ** The provisioner *)

Section ProvisionerFacts.
Import GoInt Go Github Engine Fixtures.

Lemma identity_map_lookup (names : list string) (acc : gmap string string) n :
  foldl (fun identity n => <[n := n]> identity) acc names !! n
  = if decide (n ∈ names) then Some n else acc !! n.
Proof.
  revert acc. induction names as [|x names IH]; intros acc; cbn [foldl].
  - destruct (decide (n ∈ [])) as [H|_]; [inversion H | reflexivity].
  - rewrite IH. destruct (decide (n ∈ names)) as [Hin|Hnin].
    + rewrite decide_True by (right; exact Hin). reflexivity.
    + destruct (decide (n = x)) as [->|Hne].
      * rewrite decide_True by left. apply lookup_insert_eq.
      * rewrite decide_False by (intros H; inversion H; subst; contradiction).
        apply lookup_insert_ne. congruence.
Qed.

(** C8.  With auto-creation disabled, [EnsureCostCentersExist] returns the
    map that sends every requested name to itself and nothing else, a nil
    newly-created map and a nil error, and it sends no request and leaves
    the state as it was. *)
Theorem EnsureCostCentersExist_without_auto_create
    {W : Type} (R : Remote W) (m : Manager) (ccNames : list string) (s : State W) :
  autoCreate m = false ->
  (forall n, n ∈ ccNames ->
     fst (fst (val (EnsureCostCentersExist R m ccNames s))) !! n = Some n)
  /\ (forall n id,
        fst (fst (val (EnsureCostCentersExist R m ccNames s))) !! n = Some id ->
        n ∈ ccNames /\ id = n)
  /\ snd (fst (val (EnsureCostCentersExist R m ccNames s))) = None
  /\ snd (val (EnsureCostCentersExist R m ccNames s)) = None
  /\ events (EnsureCostCentersExist R m ccNames s) = []
  /\ final (EnsureCostCentersExist R m ccNames s) = s.
Proof.
  intros Hauto. unfold EnsureCostCentersExist. rewrite Hauto. cbn.
  repeat split.
  - intros n Hin. rewrite identity_map_lookup, decide_True by exact Hin. reflexivity.
  - rewrite identity_map_lookup in H. destruct (decide (n ∈ ccNames)); [assumption|].
    rewrite lookup_empty in H. discriminate.
  - rewrite identity_map_lookup in H. destruct (decide (n ∈ ccNames)); [congruence|].
    rewrite lookup_empty in H. discriminate.
Qed.

(** The theorem for the two names of the repository's own test. *)
Lemma EnsureCostCentersExist_without_auto_create_witness :
  fst (fst (val (EnsureCostCentersExist demoRemote (demoManager false false)
                   ["cc-a"; "cc-b"] freshState))) !! "cc-b" = Some "cc-b"
  /\ snd (fst (val (EnsureCostCentersExist demoRemote (demoManager false false)
                      ["cc-a"; "cc-b"] freshState))) = None
  /\ events (EnsureCostCentersExist demoRemote (demoManager false false)
               ["cc-a"; "cc-b"] freshState) = [].
Proof.
  destruct (EnsureCostCentersExist_without_auto_create demoRemote (demoManager false false)
              ["cc-a"; "cc-b"] freshState eq_refl) as (Hid & _ & Hnil & _ & Hev & _).
  split; [|split; assumption].
  apply Hid. right. left.
Defined.

(** C2 at a concrete run.  Nothing is preloaded, the client has no cache,
    and the POST for ["X"] is answered 409 with a body that names the
    existing identifier.  The identifier is extracted, and
    [EnsureCostCentersExist] returns it marked as newly created.  In a full
    apply run with full sync enabled the two existing cost centers are then
    passed over by the removal pass, although the remote lists [dave], who is
    in no team, among their members. *)
Theorem conflict_resolved_id_is_marked_newly_created :
  FindUUID conflictBody = Some existingUUID
  /\ events (EnsureCostCentersExist demoRemote (demoManager true true) ["X"] freshState)
     = [EvListCostCenters (Ok []);
        EvPostCostCenter "X" (Err (APIError 409 conflictBody))]
  /\ fst (fst (val (EnsureCostCentersExist demoRemote (demoManager true true) ["X"]
                      freshState))) !! "X" = Some existingUUID
  /\ (exists newlyCreated,
        snd (fst (val (EnsureCostCentersExist demoRemote (demoManager true true) ["X"]
                         freshState))) = Some newlyCreated
        /\ newlyCreated !! existingUUID = Some true)
  /\ removals existingUUID
       (events (SyncTeamAssignments demoRemote listOrder (demoManager true true)
                  "apply" false freshState)) = []
  /\ removals "[org team] org1/team-b"
       (events (SyncTeamAssignments demoRemote listOrder (demoManager false true)
                  "apply" false freshState)) = [["alice"; "dave"]].
Proof.
  repeat split; try (vm_compute; reflexivity).
  eexists. split; vm_compute; reflexivity.
Qed.

End ProvisionerFacts.

Section ConflictFacts.
Import GoInt Go Github Engine.

Context {W : Type} (R : Remote W).

Lemma cacheGet_nil key (s : State W) :
  ccCache s = None -> cacheGet R key s = ((None, s), []).
Proof. intros H. unfold cacheGet. rewrite H. reflexivity. Qed.

Lemma cacheSet_nil key id name (s : State W) :
  ccCache s = None -> cacheSet R key id name s = ((tt, s), []).
Proof. intros H. unfold cacheSet. rewrite H. reflexivity. Qed.

(** A conflict whose body names the existing identifier is returned by
    [CreateCostCenter] like a creation: the identifier and a nil error. *)
Lemma CreateCostCenter_conflict name (s : State W) e body id :
  ccCache s = None ->
  fst (postCostCenter R name (world s)) = Err e ->
  as_APIError e = Some (409, body) ->
  FindUUID body = Some id ->
  val (CreateCostCenter R name s) = Ok id
  /\ events (CreateCostCenter R name s) = [EvPostCostCenter name (Err e)].
Proof.
  intros Hc Hpost Has Hfind. unfold CreateCostCenter.
  rewrite run_bind, (cacheGet_nil name s Hc). cbn [val final events fst snd].
  destruct (postCostCenter R name (world s)) as [r w'] eqn:Hp. cbn in Hpost. subst r.
  assert (Hcall : call (postCostCenter R name) (EvPostCostCenter name) s
                  = ((Err e, set_world W w' s), [EvPostCostCenter name (Err e)]))
    by (unfold call; rewrite Hp; reflexivity).
  rewrite run_bind, Hcall. cbn [val final events fst snd]. rewrite Has.
  cbn [Z.eqb Pos.eqb]. rewrite Hfind.
  rewrite run_bind, cacheSet_nil by exact Hc. cbn. auto.
Qed.

(** In the loop of [EnsureCostCentersExist], a name that is not preloaded
    and is resolved through such a conflict has its identifier entered in
    the newly-created map. *)
Lemma ensureLoop_conflict name activeMap ccMap newlyCreated (s : State W) e body id :
  activeMap !! name = None ->
  ccCache s = None ->
  fst (postCostCenter R name (world s)) = Err e ->
  as_APIError e = Some (409, body) ->
  FindUUID body = Some id ->
  val (ensureLoop R [name] activeMap ccMap newlyCreated s)
  = (<[name := id]> ccMap, <[id := true]> newlyCreated).
Proof.
  intros Ha Hc Hpost Has Hfind. cbn [ensureLoop]. rewrite Ha.
  destruct (CreateCostCenter_conflict name s e body id Hc Hpost Has Hfind) as [Hv _].
  rewrite val_bind. unfold CreateCostCenterWithPreload. rewrite Ha.
  rewrite val_bind, (cacheGet_nil name s Hc). cbn [val final fst snd].
  rewrite val_bind, Hv. cbn. reflexivity.
Qed.

End ConflictFacts.

(** ** Additions *)

Section AdditionFacts.
Import GoInt Go Github Engine.

Context {W : Type} (R : Remote W).

Lemma CheckUserCostCenterMembership_run u (s : State W) :
  events (CheckUserCostCenterMembership R u s)
  = [EvGetMemberships u (fst (getMemberships R u (world s)))]
  /\ val (CheckUserCostCenterMembership R u s)
     = match fst (getMemberships R u (world s)) with
       | Err _ => (None, None)
       | Ok [] => (None, None)
       | Ok (ms :: _) => (Some (CostCenter_of ms), None)
       end.
Proof.
  unfold CheckUserCostCenterMembership. rewrite run_bind.
  destruct (events_call (getMemberships R u) (EvGetMemberships u) s) as [He Hv].
  rewrite He, Hv. cbn [val events fst snd].
  destruct (fst (getMemberships R u (world s))) as [[|ms l]|e]; cbn; auto.
Qed.

(** The first loop of [AddUsersToCostCenter] with the membership check on:
    a user whose lookup failed ends among the users to add, and so does
    everyone who was there before. *)
Lemma selectUsers_keeps_failed_lookups memberSet usernames :
  forall results toAdd (s : State W),
  (forall u e,
      EvGetMemberships u (Err e)
        ∈ events (selectUsers R memberSet false usernames results toAdd s) ->
      u ∈ snd (val (selectUsers R memberSet false usernames results toAdd s)))
  /\ (forall u, u ∈ toAdd ->
        u ∈ snd (val (selectUsers R memberSet false usernames results toAdd s)))
  /\ Forall (fun ev => exists u r, ev = EvGetMemberships u r)
            (events (selectUsers R memberSet false usernames results toAdd s)).
Proof.
  induction usernames as [|x usernames IH]; intros results toAdd s.
  - cbn. repeat split; [intros u e H; inversion H | auto | constructor].
  - cbn [selectUsers]. destruct (lookup_bool memberSet x); [apply IH|].
    cbn [negb]. rewrite run_bind.
    destruct (CheckUserCostCenterMembership_run x s) as [He Hv].
    rewrite He, Hv. cbn [val final events fst snd].
    destruct (fst (getMemberships R x (world s))) as [[|ms l]|err] eqn:Hlook;
      cbn [fst snd].
    + edestruct IH as (IH1 & IH2 & IH3). repeat split.
      * intros u e Hin. apply elem_of_cons in Hin as [Heq|Hin]; [discriminate|].
        apply IH1 in Hin. exact Hin.
      * intros u Hu. apply IH2. apply elem_of_app. left. exact Hu.
      * constructor; [eauto | exact IH3].
    + edestruct IH as (IH1 & IH2 & IH3). repeat split.
      * intros u e Hin. apply elem_of_cons in Hin as [Heq|Hin]; [discriminate|].
        apply IH1 in Hin. exact Hin.
      * intros u Hu. apply IH2. exact Hu.
      * constructor; [eauto | exact IH3].
    + edestruct IH as (IH1 & IH2 & IH3). repeat split.
      * intros u e Hin. apply elem_of_cons in Hin as [Heq|Hin].
        -- injection Heq as -> _. apply IH2. apply elem_of_app. right. left.
        -- apply IH1 in Hin. exact Hin.
      * intros u Hu. apply IH2. apply elem_of_app. left. exact Hu.
      * constructor; [eauto | exact IH3].
Qed.

Lemma addBatches_posts costCenterID bs :
  forall results (s : State W) batch,
  batch ∈ bs ->
  exists r, EvPostUsers costCenterID batch r
              ∈ events (addBatches R costCenterID bs results s).
Proof.
  induction bs as [|b bs IH]; intros results s batch Hin; [inversion Hin|].
  cbn [addBatches]. rewrite events_bind.
  destruct (events_call (postUsers R costCenterID b) (EvPostUsers costCenterID b) s)
    as [He Hv].
  rewrite He, Hv. apply elem_of_cons in Hin as [->|Hin].
  - eexists. apply elem_of_app. left. left.
  - destruct (fst (postUsers R costCenterID b (world s))).
    + edestruct IH as [r Hr]; [exact Hin|]. exists r. apply elem_of_app. right. exact Hr.
    + edestruct IH as [r Hr]; [exact Hin|]. exists r. apply elem_of_app. right. exact Hr.
Qed.

Lemma chunks_concat fuel : forall l, (length l <= fuel)%nat -> concat (chunks fuel l) = l.
Proof.
  induction fuel as [|fuel IH]; intros l Hl.
  - destruct l; [reflexivity | cbn in Hl; lia].
  - destruct l as [|x l]; [reflexivity|].
    cbn [chunks concat]. rewrite IH.
    + apply take_drop.
    + rewrite length_drop. unfold batchSize. cbn [length] in *. lia.
Qed.

(** Every user to add is in one of the batches. *)
Lemma batches_cover l u : u ∈ l -> exists batch, batch ∈ batches l /\ u ∈ batch.
Proof.
  intros Hu. unfold batches.
  rewrite <- (chunks_concat (length l) l) in Hu at 1 by lia.
  apply list_elem_of_In, in_concat in Hu as (batch & Hin & Hb).
  exists batch. split; apply list_elem_of_In; assumption.
Qed.

Lemma GetCostCenterMembers_events id (s : State W) :
  events (GetCostCenterMembers R id s)
  = [EvGetCostCenter id (fst (getCostCenter R id (world s)))]
  /\ val (GetCostCenterMembers R id s)
     = match fst (getCostCenter R id (world s)) with
       | Err e => Err (Wrap "fetching cost center" e)
       | Ok detail => Ok (userNames (Resources detail))
       end.
Proof.
  unfold GetCostCenterMembers, GetCostCenter. rewrite !run_bind.
  destruct (events_call (getCostCenter R id) (EvGetCostCenter id) s) as [He Hv].
  rewrite He, Hv. cbn [val final events fst snd].
  destruct (fst (getCostCenter R id (world s))); cbn; auto.
Qed.


End AdditionFacts.

(** ** The resolver *)

Section ResolverFacts.
Import GoInt Go Github Engine.

Lemma assignMembers_lookup cc org slug key members :
  forall acc u,
  fst (assignMembers cc org slug key members acc) !! u
  = if decide (u ∈ members) then Some (mkUserAssignment u cc org slug)
    else fst acc !! u.
Proof.
  unfold assignMembers.
  induction members as [|x members IH]; intros acc u; cbn [foldl].
  - rewrite decide_False by (intros H; inversion H). reflexivity.
  - rewrite IH. cbn [fst].
    destruct (decide (u ∈ members)) as [Hin|Hnin].
    + rewrite decide_True by (right; exact Hin). reflexivity.
    + destruct (decide (u = x)) as [->|Hne].
      * rewrite decide_True by left. apply lookup_insert_eq.
      * rewrite decide_False by (intros H; inversion H; subst; contradiction).
        apply lookup_insert_ne. congruence.
Qed.

(** Last team wins: after the member loops of the teams [ps], a user has
    the assignment of the last team that lists it. *)
Lemma applyProcessed_last_wins m ps :
  forall acc u,
  fst (foldl (applyProcessed m) acc ps) !! u
  = match lastTeamOf u ps with
    | Some p => Some (assignmentFrom p u)
    | None => fst acc !! u
    end.
Proof.
  unfold lastTeamOf.
  induction ps as [|p ps IH]; intros acc u; cbn [foldl]; [reflexivity|].
  rewrite IH. unfold applyProcessed. rewrite assignMembers_lookup.
  destruct (decide (u ∈ p_members p)) as [Hin|Hnin].
  - rewrite filter_cons_True by exact Hin. rewrite last_cons.
    destruct (last (filter _ ps)); reflexivity.
  - rewrite filter_cons_False by exact Hnin. reflexivity.
Qed.

Context {W : Type} (R : Remote W) (ord : MapOrder) (m : Manager).

(** The team loop only appends to [done], and the assignments it returns
    are those of the member loops of the teams it appended. *)
Lemma processTeams_replay todo :
  forall acc done (s : State W) acc' done',
  val (processTeams R m todo acc done s) = Ok (acc', done') ->
  exists new, done' = done ++ new /\ acc' = foldl (applyProcessed m) acc new.
Proof.
  induction todo as [|[org team] todo IH]; intros acc done s acc' done'.
  - cbn. intros [= <- <-]. exists []. rewrite app_nil_r. auto.
  - cbn [processTeams]. rewrite val_bind.
    destruct (snd (val (costCenterForTeam m org team s))); cbn [negb].
    2:{ apply IH. }
    rewrite val_bind.
    destruct (val (fetchTeamMembers R m org (team_Slug team) _)) as [members|e];
      [|discriminate].
    destruct members as [|x members]; [apply IH|].
    intros H. apply IH in H as (new & -> & ->).
    eexists (_ :: new). rewrite <- app_assoc. cbn [app foldl]. split; reflexivity.
Qed.

(** The final assignment of every user after [buildUserFinal]. *)
Lemma buildUserFinal_last_wins (s : State W) uf utm done u :
  val (buildUserFinal R ord m s) = Ok (Some (uf, utm, done)) ->
  uf !! u = (fun p => assignmentFrom p u) <$> lastTeamOf u done.
Proof.
  unfold buildUserFinal. rewrite val_bind.
  destruct (val (fetchAllTeams R m s)) as [allTeams|e]; [|discriminate].
  destruct (size allTeams =? 0)%nat; [discriminate|].
  rewrite val_bind.
  destruct (val (processTeams R m _ _ _ _)) as [[acc' done']|e] eqn:Hp; [|discriminate].
  intros [= Hacc' Hdone'].
  apply processTeams_replay in Hp as (new & Hnew & Hacc). cbn [app] in Hnew.
  assert (Huf : uf = fst (foldl (applyProcessed m) (∅, ∅) done))
    by (rewrite <- Hdone', Hnew, <- Hacc, Hacc'; reflexivity).
  rewrite Huf, applyProcessed_last_wins. cbn [fst].
  destruct (lastTeamOf u done); [reflexivity | apply lookup_empty].
Qed.

Lemma buildUserFinal_key (s : State W) uf utm done u ua :
  val (buildUserFinal R ord m s) = Ok (Some (uf, utm, done)) ->
  uf !! u = Some ua -> Username ua = u.
Proof.
  intros Hb Hu. rewrite (buildUserFinal_last_wins s uf utm done u Hb) in Hu.
  destruct (lastTeamOf u done); [|discriminate]. cbn in Hu. injection Hu as <-. reflexivity.
Qed.

(** *** Grouping by cost center *)

Lemma allAssignments_elem (asg : gmap string (list UserAssignment)) ua :
  ua ∈ allAssignments asg <-> exists cc l, asg !! cc = Some l /\ ua ∈ l.
Proof.
  unfold allAssignments. rewrite list_elem_of_join. split.
  - intros (l & Hua & Hl). apply list_elem_of_fmap in Hl as ([cc l'] & -> & Hin).
    apply elem_of_map_to_list in Hin. eauto.
  - intros (cc & l & Hl & Hua). exists l. split; [exact Hua|].
    apply list_elem_of_fmap. exists (cc, l). split; [reflexivity|].
    apply elem_of_map_to_list. exact Hl.
Qed.

Lemma allAssignments_insert (asg : gmap string (list UserAssignment)) cc l :
  asg !! cc = None -> allAssignments (<[cc := l]> asg) ≡ₚ l ++ allAssignments asg.
Proof.
  intros H. unfold allAssignments. rewrite map_to_list_insert by exact H. reflexivity.
Qed.

Lemma allAssignments_append (asg : gmap string (list UserAssignment)) cc ua :
  allAssignments (<[cc := lookup_list asg cc ++ [ua]]> asg) ≡ₚ ua :: allAssignments asg.
Proof.
  unfold lookup_list. destruct (asg !! cc) as [old|] eqn:Hcc; cbn [default].
  - assert (Hold : allAssignments asg ≡ₚ old ++ allAssignments (delete cc asg)).
    { unfold allAssignments. rewrite <- (map_to_list_delete asg cc old Hcc). reflexivity. }
    rewrite <- insert_delete_eq.
    rewrite allAssignments_insert by apply lookup_delete_eq.
    rewrite Hold, <- app_assoc. symmetry. apply Permutation_middle.
  - rewrite allAssignments_insert by exact Hcc. reflexivity.
Qed.

Lemma group_fold_perm (kvs : list (string * UserAssignment)) :
  forall acc, allAssignments (foldl groupStep acc kvs) ≡ₚ allAssignments acc ++ kvs.*2.
Proof.
  induction kvs as [|kv kvs IH]; intros acc; cbn [foldl].
  - rewrite app_nil_r. reflexivity.
  - rewrite IH. unfold groupStep. cbv zeta. rewrite allAssignments_append.
    cbn [fmap list_fmap app]. apply Permutation_middle.
Qed.

Lemma group_fold_keys (kvs : list (string * UserAssignment)) :
  forall acc,
  (forall cc l ua, acc !! cc = Some l -> ua ∈ l -> CostCenter ua = cc) ->
  forall cc l ua, foldl groupStep acc kvs !! cc = Some l -> ua ∈ l -> CostCenter ua = cc.
Proof.
  induction kvs as [|kv kvs IH]; intros acc Hacc; cbn [foldl]; [exact Hacc|].
  apply IH. intros cc l ua. unfold groupStep. cbv zeta.
  destruct (decide (CostCenter (snd kv) = cc)) as [<-|Hne].
  - rewrite lookup_insert_eq. intros [= <-] Hin.
    apply elem_of_app in Hin as [Hin|Hin].
    + unfold lookup_list in Hin.
      destruct (acc !! CostCenter (snd kv)) as [old|] eqn:Hold; [|inversion Hin].
      eapply Hacc; eassumption.
    + apply list_elem_of_singleton in Hin as ->. reflexivity.
  - rewrite lookup_insert_ne by exact Hne. apply Hacc.
Qed.

Lemma groupByCostCenter_perm (uf : gmap string UserAssignment) :
  allAssignments (groupByCostCenter ord uf) ≡ₚ (map_to_list uf).*2.
Proof.
  unfold groupByCostCenter.
  rewrite (group_fold_perm (range ord 328 uf) ∅).
  unfold allAssignments at 1. rewrite map_to_list_empty. cbn [fmap list_fmap mjoin app].
  rewrite (range_perm ord 328 _ uf). reflexivity.
Qed.

Lemma groupByCostCenter_keys (uf : gmap string UserAssignment) cc l ua :
  groupByCostCenter ord uf !! cc = Some l -> ua ∈ l -> CostCenter ua = cc.
Proof.
  unfold groupByCostCenter. apply group_fold_keys.
  intros cc' l' ua' H. rewrite lookup_empty in H. discriminate.
Qed.

End ResolverFacts.

Section ResolverClaims.
Import GoInt Go Github Engine Fixtures.

Context {W : Type} (R : Remote W) (ord : MapOrder) (m : Manager).

Lemma BuildTeamAssignments_groups (s : State W) asg :
  val (BuildTeamAssignments R ord m s) = Ok (Some asg) ->
  exists uf utm done,
    val (buildUserFinal R ord m s) = Ok (Some (uf, utm, done))
    /\ asg = groupByCostCenter ord uf.
Proof.
  unfold BuildTeamAssignments. rewrite val_bind.
  destruct (val (buildUserFinal R ord m s)) as [[[[uf utm] done]|]|e]; try discriminate.
  cbn. intros [= <-]. eauto.
Qed.

Lemma fmap_snd_fst {A B} (f : B -> A) (l : list (A * B)) :
  (forall kv, kv ∈ l -> f (snd kv) = fst kv) -> f <$> l.*2 = l.*1.
Proof.
  induction l as [|kv l IH]; intros H; [reflexivity|].
  cbn [fmap list_fmap]. f_equal.
  - apply H. left.
  - apply IH. intros kv' Hin. apply H. right. exact Hin.
Qed.

(** No user has two assignments in the result of [BuildTeamAssignments]. *)
Lemma BuildTeamAssignments_NoDup (s : State W) asg :
  val (BuildTeamAssignments R ord m s) = Ok (Some asg) ->
  NoDup (Username <$> allAssignments asg).
Proof.
  intros Hb. destruct (BuildTeamAssignments_groups s asg Hb) as (uf & utm & done & Hu & ->).
  rewrite (groupByCostCenter_perm ord uf).
  rewrite (fmap_snd_fst Username (map_to_list uf)).
  - apply NoDup_fst_map_to_list.
  - intros [u ua] Hin. apply elem_of_map_to_list in Hin.
    exact (buildUserFinal_key R ord m s uf utm done u ua Hu Hin).
Qed.

(** C1.  In the map returned by [BuildTeamAssignments] no user has two
    assignments, whatever the cost-center keys: two positions that hold
    assignments of the same user are the same position under the same key.
    A user who is a member of processed teams has the assignment computed
    from the last of them, filed under that team's cost center, and every
    assignment in the map is of that kind. *)
Theorem one_assignment_per_user_last_team_wins (s : State W) asg :
  val (BuildTeamAssignments R ord m s) = Ok (Some asg) ->
  exists uf utm done,
    val (buildUserFinal R ord m s) = Ok (Some (uf, utm, done))
    /\ NoDup (Username <$> allAssignments asg)
    /\ (forall cc1 cc2 l1 l2 i j ua1 ua2,
          asg !! cc1 = Some l1 -> asg !! cc2 = Some l2 ->
          l1 !! i = Some ua1 -> l2 !! j = Some ua2 ->
          Username ua1 = Username ua2 -> cc1 = cc2 /\ i = j)
    /\ (forall u p,
          lastTeamOf u done = Some p ->
          exists l, asg !! p_cc p = Some l /\ assignmentFrom p u ∈ l)
    /\ (forall cc l ua,
          asg !! cc = Some l -> ua ∈ l ->
          CostCenter ua = cc
          /\ exists p, lastTeamOf (Username ua) done = Some p
                       /\ ua = assignmentFrom p (Username ua)).
Proof.
  intros Hb. pose proof (BuildTeamAssignments_NoDup s asg Hb) as Hnd.
  destruct (BuildTeamAssignments_groups s asg Hb) as (uf & utm & done & Hu & Hasg).
  exists uf, utm, done.
  assert (Hin_uf : forall ua, ua ∈ allAssignments asg <-> uf !! Username ua = Some ua).
  { intros ua. rewrite Hasg, (groupByCostCenter_perm ord uf). split.
    - intros Hin. apply list_elem_of_fmap in Hin as ([u ua'] & -> & Hin).
      apply elem_of_map_to_list in Hin. cbn.
      rewrite (buildUserFinal_key R ord m s uf utm done u ua' Hu Hin). exact Hin.
    - intros Hl. apply list_elem_of_fmap. exists (Username ua, ua). split; [reflexivity|].
      apply elem_of_map_to_list. exact Hl. }
  assert (Hevery : forall cc l ua,
             asg !! cc = Some l -> ua ∈ l ->
             CostCenter ua = cc
             /\ exists p, lastTeamOf (Username ua) done = Some p
                          /\ ua = assignmentFrom p (Username ua)).
  { intros cc l ua Hl Hua. split.
    - rewrite Hasg in Hl. exact (groupByCostCenter_keys ord uf cc l ua Hl Hua).
    - assert (Hall : ua ∈ allAssignments asg) by (apply allAssignments_elem; eauto).
      apply Hin_uf in Hall.
      rewrite (buildUserFinal_last_wins R ord m s uf utm done _ Hu) in Hall.
      destruct (lastTeamOf (Username ua) done) as [p|]; [|discriminate].
      cbn in Hall. injection Hall as Hall. eauto. }
  split; [exact Hu | split; [exact Hnd | split; [|split; [|exact Hevery]]]].
  - intros cc1 cc2 l1 l2 i j ua1 ua2 Hl1 Hl2 Hi Hj Hname.
    destruct (Hevery cc1 l1 ua1 Hl1) as (Hcc1 & p1 & Hp1 & Hua1);
      [eapply list_elem_of_lookup_2; exact Hi|].
    destruct (Hevery cc2 l2 ua2 Hl2) as (Hcc2 & p2 & Hp2 & Hua2);
      [eapply list_elem_of_lookup_2; exact Hj|].
    rewrite <- Hname, Hp1 in Hp2. injection Hp2 as <-.
    assert (Heq : ua1 = ua2) by (rewrite Hua1, Hua2, Hname; reflexivity).
    subst ua2. assert (Hcc : cc1 = cc2) by congruence.
    split; [exact Hcc|].
    rewrite <- Hcc, Hl1 in Hl2. injection Hl2 as Hl2. rewrite <- Hl2 in Hj.
    assert (Hnd1 : NoDup (Username <$> l1)).
    { assert (Hperm : allAssignments asg ≡ₚ l1 ++ allAssignments (delete cc1 asg)).
      { unfold allAssignments. rewrite <- (map_to_list_delete asg cc1 l1 Hl1). reflexivity. }
      rewrite Hperm, fmap_app in Hnd. apply NoDup_app in Hnd as [Hnd _]. exact Hnd. }
    eapply (NoDup_lookup _ i j (Username ua1) Hnd1);
      rewrite list_lookup_fmap; [rewrite Hi | rewrite Hj]; reflexivity.
  - intros u p Hp.
    assert (Huf : uf !! u = Some (assignmentFrom p u)).
    { rewrite (buildUserFinal_last_wins R ord m s uf utm done u Hu), Hp. reflexivity. }
    assert (Hall : assignmentFrom p u ∈ allAssignments asg) by (apply Hin_uf; exact Huf).
    apply allAssignments_elem in Hall as (cc & l & Hl & Hua).
    destruct (Hevery cc l _ Hl Hua) as [Hcc _]. cbn in Hcc. subst cc. eauto.
Qed.

End ResolverClaims.

Section ResolverWitness.
Import GoInt Go Github Engine Fixtures.

(** The theorem at the scenario of the design document: [team-a] holds
    alice and bob, [team-b] holds bob and carol, and [team-b] is processed
    last; bob is filed under the cost center of [team-b]. *)
Lemma one_assignment_per_user_last_team_wins_witness :
  exists asg l,
    val (BuildTeamAssignments demoRemote listOrder (demoManager false false) freshState)
    = Ok (Some asg)
    /\ asg !! "[org team] org1/team-b" = Some l
    /\ mkUserAssignment "bob" "[org team] org1/team-b" "org1" "team-b" ∈ l.
Proof.
  destruct (val (BuildTeamAssignments demoRemote listOrder (demoManager false false)
                   freshState)) as [[asg|]|e] eqn:Hrun;
    [| vm_compute in Hrun; discriminate Hrun | vm_compute in Hrun; discriminate Hrun].
  destruct (one_assignment_per_user_last_team_wins demoRemote listOrder
              (demoManager false false) freshState asg Hrun)
    as (uf & utm & done & Hu & _ & _ & Hlast & _).
  vm_compute in Hu. injection Hu as _ _ Hdone.
  destruct (Hlast "bob" (mkProcessed "org1" "team-b" "[org team] org1/team-b" ["bob"; "carol"]))
    as (l & Hl & Hbob).
  { rewrite <- Hdone. vm_compute. reflexivity. }
  exists asg, l. split; [reflexivity | split; [exact Hl | exact Hbob]].
Defined.

End ResolverWitness.

(** ** The summary *)

Section SummaryFacts.
Import GoInt Go Github Engine Fixtures.

Lemma users_fold_dom (uas : list UserAssignment) :
  forall allUsers : gmap string bool,
  dom (foldl (fun allUsers ua => <[Username ua := true]> allUsers) allUsers uas)
  = dom allUsers ∪ list_to_set (Username <$> uas).
Proof.
  induction uas as [|ua uas IH]; intros allUsers; cbn [foldl fmap list_fmap list_to_set].
  - rewrite (right_id_L ∅ (∪)). reflexivity.
  - rewrite IH, dom_insert_L.
    rewrite (comm_L (∪) {[Username ua]} (dom allUsers)), <- (assoc_L (∪)). reflexivity.
Qed.

Lemma sumCounts_insert (counts : gmap string Z) k n :
  counts !! k = None -> sumCounts (<[k := n]> counts) = n + sumCounts counts.
Proof.
  intros H. unfold sumCounts. rewrite map_fold_insert_L; [reflexivity | | exact H].
  intros. lia.
Qed.

Lemma count_fold_users (kvs : list (string * list UserAssignment)) :
  forall acc,
  dom (fst (foldl countStep acc kvs))
  = dom (fst acc) ∪ list_to_set (Username <$> mjoin kvs.*2).
Proof.
  induction kvs as [|kv kvs IH]; intros acc; cbn [foldl fmap list_fmap].
  - cbn. rewrite (right_id_L ∅ (∪)). reflexivity.
  - change (mjoin (snd kv :: kvs.*2)) with (snd kv ++ mjoin kvs.*2).
    rewrite IH. unfold countStep. cbn [fst].
    rewrite users_fold_dom, fmap_app, list_to_set_app_L, <- (assoc_L (∪)). reflexivity.
Qed.

Lemma count_fold_sum (kvs : list (string * list UserAssignment)) :
  forall acc,
  NoDup kvs.*1 ->
  (forall k, k ∈ kvs.*1 -> snd acc !! k = None) ->
  sumCounts (snd (foldl countStep acc kvs))
  = sumCounts (snd acc) + Z.of_nat (length (mjoin kvs.*2)).
Proof.
  induction kvs as [|[k l] kvs IH]; intros acc Hnd Hfresh;
    cbn [foldl fmap list_fmap].
  - cbn. lia.
  - cbn [fmap list_fmap fst] in Hnd. apply NoDup_cons in Hnd as [Hk Hnd].
    change (mjoin (snd (k, l) :: kvs.*2)) with (l ++ mjoin kvs.*2).
    rewrite IH; [| exact Hnd |].
    + unfold countStep. cbn [snd fst]. rewrite sumCounts_insert.
      * rewrite length_app, Nat2Z.inj_add. unfold len. lia.
      * apply Hfresh. left.
    + intros k' Hk'. unfold countStep. cbn [snd fst].
      rewrite lookup_insert_ne by (intros ->; contradiction).
      apply Hfresh. right. exact Hk'.
Qed.

Lemma count_fold_lookup (kvs : list (string * list UserAssignment)) :
  forall acc cc,
  NoDup kvs.*1 ->
  snd (foldl countStep acc kvs) !! cc
  = match (list_to_map kvs : gmap string (list UserAssignment)) !! cc with
    | Some l => Some (len l)
    | None => snd acc !! cc
    end.
Proof.
  induction kvs as [|[k l] kvs IH]; intros acc cc Hnd; cbn [foldl list_to_map foldr].
  - rewrite lookup_empty. reflexivity.
  - cbn [fmap list_fmap fst] in Hnd. apply NoDup_cons in Hnd as [Hk Hnd].
    rewrite IH by exact Hnd. unfold countStep. cbn [snd fst].
    destruct (decide (k = cc)) as [->|Hne].
    + rewrite (not_elem_of_list_to_map_1 kvs cc Hk), !lookup_insert_eq. reflexivity.
    + rewrite !lookup_insert_ne by exact Hne. reflexivity.
Qed.

Context {W : Type} (R : Remote W) (ord : MapOrder) (m : Manager).

(** What [countUsers] computes from a map whose lists hold no user twice. *)
Lemma countUsers_spec (asg : gmap string (list UserAssignment)) :
  NoDup (Username <$> allAssignments asg) ->
  len_map (fst (countUsers ord asg)) = len (allAssignments asg)
  /\ sumCounts (snd (countUsers ord asg)) = len (allAssignments asg)
  /\ (forall cc, snd (countUsers ord asg) !! cc = (fun l => len l) <$> asg !! cc).
Proof.
  intros Hnd. unfold countUsers.
  pose proof (range_perm ord 637 _ asg) as Hperm.
  assert (Hkeys : NoDup (range ord 637 asg).*1)
    by (rewrite Hperm; apply NoDup_fst_map_to_list).
  assert (Hjoin : mjoin (range ord 637 asg).*2 ≡ₚ allAssignments asg)
    by (unfold allAssignments; rewrite Hperm; reflexivity).
  repeat split.
  - unfold len_map, len. f_equal.
    rewrite <- size_dom, count_fold_users. cbn [fst].
    rewrite dom_empty_L, (left_id_L ∅ (∪)).
    rewrite size_list_to_set by (rewrite Hjoin; exact Hnd).
    rewrite length_fmap, Hjoin. reflexivity.
  - rewrite count_fold_sum; [| exact Hkeys | intros; apply lookup_empty].
    cbn [snd]. unfold sumCounts at 1. rewrite map_fold_empty, Hjoin. unfold len. lia.
  - intros cc. rewrite count_fold_lookup by exact Hkeys. cbn [snd].
    rewrite (list_to_map_proper _ (map_to_list asg) Hkeys Hperm), list_to_map_to_list.
    destruct (asg !! cc); [reflexivity | apply lookup_empty].
Qed.

(** C10.  In the summary returned by [GenerateSummary], [UniqueUsers] is
    the sum of the counts in [CostCenters]: each count is the length of the
    list under its cost center, no user occurs twice in these lists, and
    both numbers count all assignments. *)
Theorem summary_counts_every_user_once (s : State W) (summary : Summary) :
  val (GenerateSummary R ord m s) = Ok summary ->
  exists built,
    val (BuildTeamAssignments R ord m s) = Ok built
    /\ UniqueUsers summary = sumCounts (CostCenters summary)
    /\ (forall cc, CostCenters summary !! cc = (fun l => len l) <$> default ∅ built !! cc)
    /\ NoDup (Username <$> allAssignments (default ∅ built))
    /\ UniqueUsers summary = len (allAssignments (default ∅ built)).
Proof.
  unfold GenerateSummary. rewrite val_bind.
  destruct (val (BuildTeamAssignments R ord m s)) as [built|e] eqn:Hb; [|discriminate].
  rewrite val_bind. cbn [get val final fst snd ret]. intros [= <-]. cbn [UniqueUsers CostCenters].
  exists built. split; [reflexivity|].
  assert (Hnd : NoDup (Username <$> allAssignments (default ∅ built))).
  { destruct built as [asg|]; cbn [default].
    - exact (BuildTeamAssignments_NoDup R ord m s asg Hb).
    - unfold allAssignments. rewrite map_to_list_empty. constructor. }
  destruct (countUsers_spec (default ∅ built) Hnd) as (Husers & Hsum & Hlook).
  split; [congruence | split; [exact Hlook | split; [exact Hnd | exact Husers]]].
Qed.

End SummaryFacts.

Section SummaryWitness.
Import GoInt Go Github Engine Fixtures.

(** The theorem at the scenario of the design document: three users, one
    under the cost center of [team-a] and two under that of [team-b]. *)
Lemma summary_counts_every_user_once_witness :
  exists summary,
    val (GenerateSummary demoRemote listOrder (demoManager false false) freshState)
    = Ok summary
    /\ UniqueUsers summary = sumCounts (CostCenters summary)
    /\ UniqueUsers summary = 3.
Proof.
  destruct (val (GenerateSummary demoRemote listOrder (demoManager false false) freshState))
    as [summary|e] eqn:Hrun; [| vm_compute in Hrun; discriminate Hrun].
  destruct (summary_counts_every_user_once demoRemote listOrder (demoManager false false)
              freshState summary Hrun) as (built & _ & Hsum & _).
  exists summary. split; [reflexivity | split; [exact Hsum|]].
  vm_compute in Hrun. injection Hrun as <-. reflexivity.
Defined.

End SummaryWitness.

(** ** The removal pass *)

Section RemovalFacts.
Import GoInt Go Github Engine Fixtures.

Lemma toSet_lookup (ss : list string) u :
  lookup_bool (toSet ss) u = bool_decide (u ∈ ss).
Proof.
  unfold toSet, lookup_bool.
  assert (H : forall acc : gmap string bool,
             foldl (fun mp x => <[x := true]> mp) acc ss !! u
             = if decide (u ∈ ss) then Some true else acc !! u).
  { induction ss as [|x ss IH]; intros acc; cbn [foldl].
    - rewrite decide_False by (intros H; inversion H). reflexivity.
    - rewrite IH. destruct (decide (u ∈ ss)) as [Hin|Hnin].
      + rewrite decide_True by (right; exact Hin). reflexivity.
      + destruct (decide (u = x)) as [->|Hne].
        * rewrite decide_True by left. apply lookup_insert_eq.
        * rewrite decide_False by (intros H; inversion H; subst; contradiction).
          apply lookup_insert_ne. congruence. }
  rewrite H, lookup_empty.
  destruct (decide (u ∈ ss)) as [Hin|Hnin].
  - rewrite bool_decide_eq_true_2 by exact Hin. reflexivity.
  - rewrite bool_decide_eq_false_2 by exact Hnin. reflexivity.
Qed.

(** The stale users are the current members that are not expected. *)
Lemma staleOf_elem expectedUsers currentMembers u :
  u ∈ staleOf expectedUsers currentMembers
  <-> u ∈ currentMembers /\ u ∉ expectedUsers.
Proof.
  unfold staleOf. rewrite list_elem_of_filter, toSet_lookup.
  rewrite bool_decide_eq_false. tauto.
Qed.

Lemma sort_Strings_elem l u : u ∈ sort_Strings l <-> u ∈ l.
Proof. unfold sort_Strings. rewrite merge_sort_Permutation. reflexivity. Qed.

Lemma sort_Strings_nil l : sort_Strings l = [] <-> l = [].
Proof.
  unfold sort_Strings. split.
  - intros H. apply Permutation_nil. rewrite <- H. apply merge_sort_Permutation.
  - intros ->. reflexivity.
Qed.

Lemma fetches_app ccID evs1 evs2 :
  fetches ccID (evs1 ++ evs2) = fetches ccID evs1 ++ fetches ccID evs2.
Proof. unfold fetches. apply omap_app. Qed.

Lemma removals_app ccID evs1 evs2 :
  removals ccID (evs1 ++ evs2) = removals ccID evs1 ++ removals ccID evs2.
Proof. unfold removals. apply omap_app. Qed.

Lemma fetches_cons ccID e evs : fetches ccID (e :: evs) = fetches ccID [e] ++ fetches ccID evs.
Proof. exact (fetches_app ccID [e] evs). Qed.

Lemma removals_cons ccID e evs :
  removals ccID (e :: evs) = removals ccID [e] ++ removals ccID evs.
Proof. exact (removals_app ccID [e] evs). Qed.

Lemma fetches_reports ccID display l : fetches ccID (staleReport display <$> l) = [].
Proof. induction l as [|x l IH]; [reflexivity | exact IH]. Qed.

Lemma removals_reports ccID display l : removals ccID (staleReport display <$> l) = [].
Proof. induction l as [|x l IH]; [reflexivity | exact IH]. Qed.

Lemma fetches_staleTrace m display ccID stale removed id :
  fetches id (staleTrace m display ccID stale removed) = [].
Proof.
  unfold staleTrace.
  rewrite fetches_cons.
  rewrite fetches_app, fetches_reports. destruct (removeUsers m); reflexivity.
Qed.

Lemma removals_staleTrace m display ccID stale removed id :
  removals id (staleTrace m display ccID stale removed)
  = if removeUsers m && String.eqb ccID id then [stale] else [].
Proof.
  unfold staleTrace.
  rewrite removals_cons.
  rewrite removals_app, removals_reports.
  destruct (removeUsers m); [|reflexivity]. cbn.
  destruct (String.eqb ccID id); reflexivity.
Qed.

Lemma fetches_removalTrace m idToName ccID users fetched removed id :
  fetches id (removalTrace m idToName ccID users fetched removed)
  = if String.eqb ccID id then [fetched] else [].
Proof.
  unfold removalTrace. rewrite fetches_cons.
  destruct fetched as [detail|e].
  - destruct (staleOf users (userNames (Resources detail))) as [|x stale0].
    + cbn. destruct (String.eqb ccID id); reflexivity.
    + rewrite fetches_staleTrace, app_nil_r. cbn.
      destruct (String.eqb ccID id); reflexivity.
  - cbn. destruct (String.eqb ccID id); reflexivity.
Qed.

(** The removals one turn sends: none for another cost center, none when
    the detail could not be fetched, none without stale users or with full
    sync disabled, else one with the sorted stale users. *)
Lemma removals_removalTrace m idToName ccID users fetched removed id :
  removals id (removalTrace m idToName ccID users fetched removed)
  = match fetched with
    | Err _ => []
    | Ok detail =>
        match staleOf users (userNames (Resources detail)) with
        | [] => []
        | _ :: _ =>
            if removeUsers m && String.eqb ccID id
            then [sort_Strings (staleOf users (userNames (Resources detail)))]
            else []
        end
    end.
Proof.
  unfold removalTrace.
  rewrite removals_cons.
  change (removals id [EvGetCostCenter ccID fetched]) with (@nil (list string)).
  cbn [app]. destruct fetched as [detail|e]; [|reflexivity].
  destruct (staleOf users (userNames (Resources detail))); [reflexivity|].
  apply removals_staleTrace.
Qed.

End RemovalFacts.

Section RemovalRun.
Import GoInt Go Github Engine Fixtures.

Context {W : Type} (R : Remote W) (ord : MapOrder) (m : Manager).

Lemma RemoveUsersFromCostCenter_events ccID x users (s : State W) :
  events (RemoveUsersFromCostCenter R ccID (x :: users) s)
  = [EvDeleteUsers ccID (x :: users) (fst (deleteUsers R ccID (x :: users) (world s)))].
Proof.
  unfold RemoveUsersFromCostCenter. rewrite events_bind.
  destruct (events_call (deleteUsers R ccID (x :: users))
              (EvDeleteUsers ccID (x :: users)) s) as [He Hv].
  rewrite He, Hv. destruct (fst (deleteUsers R ccID (x :: users) (world s))); reflexivity.
Qed.

(** One turn of the removal loop emits the trace of its cost center. *)
Lemma removalStep_events idToName results ccID users (s : State W) :
  exists removed,
    events (removalStep R m idToName results (ccID, users) s)
    = removalTrace m idToName ccID users (fst (getCostCenter R ccID (world s))) removed.
Proof.
  unfold removalStep, removalTrace. cbn [fst snd]. rewrite events_bind.
  destruct (GetCostCenterMembers_events R ccID s) as [He Hv]. rewrite He, Hv.
  destruct (fst (getCostCenter R ccID (world s))) as [detail|e].
  2:{ exists (Ok tt). reflexivity. }
  destruct (staleOf users (userNames (Resources detail))) as [|x stale0] eqn:Hstale.
  { exists (Ok tt). reflexivity. }
  destruct (sort_Strings (x :: stale0)) as [|y stale] eqn:Hsort.
  { apply (proj1 (sort_Strings_nil _)) in Hsort. discriminate Hsort. }
  unfold staleTrace. rewrite events_bind. cbn [emit events val final fst snd app].
  rewrite events_bind.
  set (s1 := final (GetCostCenterMembers R ccID s)).
  destruct (events_foldM_emit (staleReport (displayNameOf idToName ccID)) (y :: stale) s1)
    as [Hev Hfin].
  unfold staleReport in Hev, Hfin. rewrite Hev, Hfin.
  destruct (removeUsers m).
  - rewrite events_bind. cbn [emit events val final fst snd app].
    rewrite events_bind, RemoveUsersFromCostCenter_events.
    eexists. cbn [app events ret snd]. reflexivity.
  - exists (Ok tt). rewrite events_bind. cbn. reflexivity.
Qed.

Lemma removals_other idToName ccID users fetched removed id :
  String.eqb ccID id = false ->
  removals id (removalTrace m idToName ccID users fetched removed) = [].
Proof.
  intros Hne. rewrite removals_removalTrace, Hne, andb_false_r.
  destruct fetched as [detail|e]; [|reflexivity].
  destruct (staleOf users (userNames (Resources detail))); reflexivity.
Qed.

Lemma string_eqb_refl x : String.eqb x x = true.
Proof. apply String.eqb_eq. reflexivity. Qed.

(** The removal loop over cost centers that are pairwise different: what
    it sends for one of them is what the turn of that cost center sends. *)
Lemma removal_loop_per_cost_center idToName (kvs : list (string * list string)) :
  forall results (s : State W) ccID,
  NoDup kvs.*1 ->
  (ccID ∉ kvs.*1 ->
     fetches ccID (events (foldM (removalStep R m idToName) kvs results s)) = []
     /\ removals ccID (events (foldM (removalStep R m idToName) kvs results s)) = [])
  /\ (forall users, (ccID, users) ∈ kvs ->
        exists fetched removed,
          fetches ccID (events (foldM (removalStep R m idToName) kvs results s)) = [fetched]
          /\ removals ccID (events (foldM (removalStep R m idToName) kvs results s))
             = removals ccID (removalTrace m idToName ccID users fetched removed)
          /\ (forall e, e ∈ removalTrace m idToName ccID users fetched removed ->
                        e ∈ events (foldM (removalStep R m idToName) kvs results s))).
Proof.
  induction kvs as [|[k us] kvs IH]; intros results s ccID Hnd.
  - split; [intros _; split; reflexivity | intros users H; inversion H].
  - cbn [fmap list_fmap fst] in Hnd. apply NoDup_cons in Hnd as [Hk Hnd].
    cbn [foldM]. rewrite events_bind.
    destruct (removalStep_events idToName results k us s) as [removed Hstep].
    rewrite Hstep, !fetches_app, !removals_app, fetches_removalTrace.
    set (s1 := final (removalStep R m idToName results (k, us) s)).
    set (results1 := val (removalStep R m idToName results (k, us) s)).
    destruct (IH results1 s1 ccID Hnd) as [IHout IHin].
    split.
    + intros Hnot. cbn [fmap list_fmap fst] in Hnot.
      apply not_elem_of_cons in Hnot as [Hne Hnot].
      assert (Heqb : String.eqb k ccID = false)
        by (apply String.eqb_neq; congruence).
      destruct (IHout Hnot) as [-> ->].
      rewrite Heqb, (removals_other idToName k us _ removed ccID Heqb). auto.
    + intros users Hin. apply elem_of_cons in Hin as [Heq|Hin].
      * injection Heq as -> ->.
        destruct (IHout Hk) as [-> ->]. rewrite string_eqb_refl, !app_nil_r.
        eexists _, removed. split; [reflexivity | split; [reflexivity|]].
        intros e He. apply elem_of_app. left. exact He.
      * assert (Hne : k <> ccID).
        { intros ->. apply Hk. apply list_elem_of_fmap. exists (ccID, users). auto. }
        assert (Heqb : String.eqb k ccID = false) by (apply String.eqb_neq; exact Hne).
        destruct (IHin users Hin) as (fetched & removed' & Hf & Hr & He).
        rewrite Heqb, (removals_other idToName k us _ removed ccID Heqb).
        exists fetched, removed'. cbn [app]. split; [exact Hf | split; [exact Hr|]].
        intros e Hin'. apply elem_of_app. right. apply He. exact Hin'.
Qed.

Lemma toCheckOf_lookup (expected : gmap string (list string))
    (newlyCreated : option (gmap string bool)) ccID :
  toCheckOf ord expected newlyCreated !! ccID
  = if lookup_bool (default ∅ newlyCreated) ccID then None else expected !! ccID.
Proof.
  unfold toCheckOf.
  assert (H : forall (kvs : list (string * list string)) (acc : gmap string (list string)),
             NoDup kvs.*1 ->
             foldl (fun toCheck kv =>
                      if lookup_bool (default ∅ newlyCreated) (fst kv) then toCheck
                      else <[fst kv := snd kv]> toCheck) acc kvs !! ccID
             = match (list_to_map kvs : gmap string (list string)) !! ccID with
               | Some v => if lookup_bool (default ∅ newlyCreated) ccID
                           then acc !! ccID else Some v
               | None => acc !! ccID
               end).
  { induction kvs as [|[k v] kvs IH]; intros acc Hnd; cbn [foldl list_to_map foldr].
    - rewrite lookup_empty. reflexivity.
    - cbn [fmap list_fmap fst] in Hnd. apply NoDup_cons in Hnd as [Hk Hnd].
      rewrite IH by exact Hnd. cbn [fst snd].
      destruct (decide (k = ccID)) as [->|Hne].
      + rewrite (not_elem_of_list_to_map_1 kvs ccID Hk), lookup_insert_eq.
        destruct (lookup_bool (default ∅ newlyCreated) ccID);
          [reflexivity | apply lookup_insert_eq].
      + rewrite (lookup_insert_ne (list_to_map kvs)) by exact Hne.
        destruct (list_to_map kvs !! ccID);
          destruct (lookup_bool (default ∅ newlyCreated) k);
          try reflexivity; rewrite lookup_insert_ne by exact Hne; reflexivity. }
  pose proof (range_perm ord 528 _ expected) as Hperm.
  assert (Hkeys : NoDup (range ord 528 expected).*1)
    by (rewrite Hperm; apply NoDup_fst_map_to_list).
  rewrite H by exact Hkeys.
  rewrite (list_to_map_proper _ (map_to_list expected) Hkeys Hperm), list_to_map_to_list.
  rewrite lookup_empty.
  destruct (expected !! ccID); destruct (lookup_bool (default ∅ newlyCreated) ccID);
    reflexivity.
Qed.

(** C3.  In the removal pass, a cost center that is newly created or not
    among the expected assignments is neither fetched nor touched.  For
    every other cost center the current membership is fetched once.  If the
    fetch fails nothing is removed.  Otherwise the stale users are exactly
    the current members that are not expected, each one is reported, and
    with full sync enabled they are removed in one request (none is sent
    when no user is stale), while with full sync disabled no removal
    request is sent at all. *)
Theorem removal_pass_removes_exactly_the_stale_members
    (expected : gmap string (list string)) (ccNameToID : gmap string string)
    (newlyCreated : option (gmap string bool)) (s : State W) (ccID : string) :
  ((lookup_bool (default ∅ newlyCreated) ccID = true \/ expected !! ccID = None) ->
     fetches ccID (events (handleUserRemoval R ord m expected ccNameToID newlyCreated s)) = []
     /\ removals ccID
          (events (handleUserRemoval R ord m expected ccNameToID newlyCreated s)) = [])
  /\ (removeUsers m = false ->
      removals ccID
        (events (handleUserRemoval R ord m expected ccNameToID newlyCreated s)) = [])
  /\ (forall users,
        expected !! ccID = Some users ->
        lookup_bool (default ∅ newlyCreated) ccID = false ->
        exists fetched,
          fetches ccID
            (events (handleUserRemoval R ord m expected ccNameToID newlyCreated s))
          = [fetched]
          /\ match fetched with
             | Err _ =>
                 removals ccID
                   (events (handleUserRemoval R ord m expected ccNameToID newlyCreated s))
                 = []
             | Ok detail =>
                 let current := userNames (Resources detail) in
                 let stale := sort_Strings (staleOf users current) in
                 (forall u, u ∈ stale <-> u ∈ current /\ u ∉ users)
                 /\ removals ccID
                      (events (handleUserRemoval R ord m expected ccNameToID
                                 newlyCreated s))
                    = (if removeUsers m
                       then match stale with [] => [] | _ :: _ => [stale] end
                       else [])
                 /\ (forall u, u ∈ stale ->
                       staleReport (displayNameOf (reverseMap ord 521 ccNameToID) ccID) u
                         ∈ events (handleUserRemoval R ord m expected ccNameToID
                                     newlyCreated s))
             end).
Proof.
  unfold handleUserRemoval.
  set (idToName := reverseMap ord 521 ccNameToID).
  set (toCheck := toCheckOf ord expected newlyCreated).
  pose proof (range_perm ord 546 _ toCheck) as Hperm.
  assert (Hkeys : NoDup (range ord 546 toCheck).*1)
    by (rewrite Hperm; apply NoDup_fst_map_to_list).
  assert (Hin : forall users, (ccID, users) ∈ range ord 546 toCheck
                              <-> toCheck !! ccID = Some users).
  { intros users. rewrite Hperm. apply elem_of_map_to_list. }
  assert (Hout : toCheck !! ccID = None -> ccID ∉ (range ord 546 toCheck).*1).
  { intros Hnone Hmem. apply list_elem_of_fmap in Hmem as ([k v] & Hk & Hkv).
    cbn in Hk. subst k. apply Hin in Hkv. congruence. }
  assert (Hlook : toCheck !! ccID
                  = if lookup_bool (default ∅ newlyCreated) ccID then None
                    else expected !! ccID) by apply toCheckOf_lookup.
  destruct (removal_loop_per_cost_center idToName (range ord 546 toCheck) ∅ s ccID Hkeys)
    as [Hskip Hturn].
  split; [|split].
  - intros Hcase. apply Hskip, Hout. rewrite Hlook.
    destruct Hcase as [-> | Hnone]; [reflexivity|].
    rewrite Hnone. destruct (lookup_bool _ _); reflexivity.
  - intros Hoff.
    destruct (toCheck !! ccID) as [users|] eqn:Hc.
    + destruct (Hturn users (proj2 (Hin users) eq_refl)) as (fetched & removed & _ & -> & _).
      rewrite removals_removalTrace, Hoff.
      destruct fetched as [detail|e]; [|reflexivity].
      destruct (staleOf users (userNames (Resources detail))); reflexivity.
    + apply Hskip, Hout. reflexivity.
  - intros users Hexp Hold.
    assert (Hc : toCheck !! ccID = Some users) by (rewrite Hlook, Hold; exact Hexp).
    destruct (Hturn users (proj2 (Hin users) Hc)) as (fetched & removed & Hf & Hr & He).
    exists fetched. split; [exact Hf|].
    destruct fetched as [detail|e].
    + cbv zeta. split; [|split].
      * intros u. rewrite sort_Strings_elem. apply staleOf_elem.
      * rewrite Hr, removals_removalTrace, string_eqb_refl, andb_true_r.
        destruct (staleOf users (userNames (Resources detail))) as [|x stale0] eqn:Hs.
        -- destruct (removeUsers m); reflexivity.
        -- destruct (sort_Strings (x :: stale0)) eqn:Hsort;
             [apply (proj1 (sort_Strings_nil _)) in Hsort; discriminate Hsort|].
           reflexivity.
      * intros u Hu. apply He. unfold removalTrace.
        assert (Hne : staleOf users (userNames (Resources detail)) <> [])
          by (intros Hnil; rewrite Hnil in Hu; inversion Hu).
        destruct (staleOf users (userNames (Resources detail))) as [|x stale0];
          [contradiction|].
        right. unfold staleTrace. right. apply elem_of_app. left.
        apply list_elem_of_fmap. exists u. auto.
    + rewrite Hr, removals_removalTrace. reflexivity.
Qed.

End RemovalRun.

(** ** Plan mode *)

Section PlanFacts.
Import GoInt Go Github Engine Fixtures.

Context {W : Type} (R : Remote W) (ord : MapOrder) (m : Manager).

Lemma emits_get P : emits P (get (W:=W)).
Proof. intros s. constructor. Qed.

Lemma emits_modify P (f : State W -> State W) : emits P (modify f).
Proof. intros s. constructor. Qed.

Ltac emits_step :=
  match goal with
  | |- emits _ (ret _) => apply emits_ret
  | |- emits _ get => apply emits_get
  | |- emits _ (modify _) => apply emits_modify
  | |- emits _ (emit _) => apply emits_emit; reflexivity
  | |- emits _ (call _ _) => apply emits_call; intros ?; reflexivity
  | |- emits _ (bind _ _) => apply emits_bind; [|intros ?]
  | |- emits _ (foldM _ _ _) => apply emits_foldM; intros ? ?
  | |- emits _ (match ?x with _ => _ end) => destruct x
  end.

Lemma fetchOrgTeams_quiet os : forall allTeams, emits quiet (fetchOrgTeams R os allTeams).
Proof.
  induction os as [|org os IH]; intros allTeams; cbn [fetchOrgTeams].
  - apply emits_ret.
  - repeat emits_step. apply IH.
Qed.

Lemma fetchAllTeams_quiet : emits quiet (fetchAllTeams R m).
Proof.
  unfold fetchAllTeams. destruct (is_enterprise m).
  - repeat emits_step.
  - destruct (orgs m) as [|org os]; [apply emits_ret | apply fetchOrgTeams_quiet].
Qed.

Lemma fetchTeamMembers_quiet org slug : emits quiet (fetchTeamMembers R m org slug).
Proof. unfold fetchTeamMembers. repeat emits_step. Qed.

Lemma costCenterForTeam_quiet org team : emits quiet (costCenterForTeam (W:=W) m org team).
Proof. unfold costCenterForTeam. repeat emits_step. Qed.

Lemma processTeams_quiet todo : forall acc done, emits quiet (processTeams R m todo acc done).
Proof.
  induction todo as [|[org team] todo IH]; intros acc done; cbn [processTeams].
  - apply emits_ret.
  - apply emits_bind; [apply costCenterForTeam_quiet | intros cc].
    destruct (negb (snd cc)); [apply IH|].
    apply emits_bind; [apply fetchTeamMembers_quiet | intros r].
    destruct r as [[|x members]|e]; [apply IH | apply IH | apply emits_ret].
Qed.

(** [BuildTeamAssignments] only reads: teams and their members. *)
Lemma BuildTeamAssignments_quiet : emits quiet (BuildTeamAssignments R ord m).
Proof.
  unfold BuildTeamAssignments, buildUserFinal.
  apply emits_bind.
  - apply emits_bind; [apply fetchAllTeams_quiet | intros r].
    destruct r as [allTeams|e]; [|apply emits_ret].
    destruct (size allTeams =? 0)%nat; [apply emits_ret|].
    apply emits_bind; [apply processTeams_quiet | intros r2].
    destruct r2; apply emits_ret.
  - intros r. destruct r as [[x|]|e]; apply emits_ret.
Qed.

End PlanFacts.

Section PlanCounts.
Import GoInt Go Github Engine Fixtures.

Lemma group_fold_nonempty (kvs : list (string * UserAssignment)) :
  forall acc,
  (forall cc l, acc !! cc = Some l -> l <> []) ->
  forall cc l, foldl groupStep acc kvs !! cc = Some l -> l <> [].
Proof.
  induction kvs as [|kv kvs IH]; intros acc Hacc; cbn [foldl]; [exact Hacc|].
  apply IH. intros cc l. unfold groupStep. cbv zeta.
  destruct (decide (CostCenter (snd kv) = cc)) as [<-|Hne].
  - rewrite lookup_insert_eq. intros [= <-]. intros H. apply app_eq_nil in H as [_ H].
    discriminate H.
  - rewrite lookup_insert_ne by exact Hne. apply Hacc.
Qed.

(** The user names of a list without repetition pass the [seen] filter of
    the conversion unchanged. *)
Lemma dedup_fold ccID (l : list UserAssignment) :
  forall (idBased : gmap string (list string)) (seen : gmap string bool),
  NoDup (Username <$> l) ->
  (forall ua, ua ∈ l -> lookup_bool seen (Username ua) = false) ->
  fst (foldl (fun acc ua =>
                if lookup_bool (snd acc) (Username ua) then acc
                else (<[ccID := lookup_list (fst acc) ccID ++ [Username ua]]> (fst acc),
                      <[Username ua := true]> (snd acc)))
             (idBased, seen) l)
  = match l with
    | [] => idBased
    | _ :: _ => <[ccID := lookup_list idBased ccID ++ (Username <$> l)]> idBased
    end.
Proof.
  induction l as [|ua l IH]; intros idBased seen Hnd Hseen; [reflexivity|].
  cbn [foldl fst snd]. rewrite (Hseen ua) by left.
  cbn [fmap list_fmap] in Hnd. apply NoDup_cons in Hnd as [Hua Hnd].
  rewrite IH; [| exact Hnd |].
  - destruct l as [|ua' l]; [reflexivity|].
    unfold lookup_list at 1. rewrite lookup_insert_eq. cbn [default].
    rewrite insert_insert_eq. unfold id. rewrite <- app_assoc. reflexivity.
  - intros ua' Hin. unfold lookup_bool.
    rewrite lookup_insert_ne.
    + apply Hseen. right. exact Hin.
    + intros Heq. apply Hua. rewrite Heq. apply list_elem_of_fmap_2. exact Hin.
Qed.

Lemma dedupInto_NoDup ccID (l : list UserAssignment) (idBased : gmap string (list string)) :
  NoDup (Username <$> l) ->
  dedupInto ccID l idBased
  = match l with
    | [] => idBased
    | _ :: _ => <[ccID := lookup_list idBased ccID ++ (Username <$> l)]> idBased
    end.
Proof.
  intros Hnd. unfold dedupInto. apply dedup_fold; [exact Hnd|].
  intros ua _. reflexivity.
Qed.

(** The conversion to identifiers when every name is its own identifier
    and no list is empty or repeats a user: every cost center keeps its
    users. *)
Lemma idBased_fold_identity (ccMap : gmap string string)
    (kvs : list (string * list UserAssignment)) :
  forall (acc : gmap string (list string)) cc,
  NoDup kvs.*1 ->
  (forall kv, kv ∈ kvs -> lookup_str ccMap (fst kv) = fst kv
                          /\ snd kv <> [] /\ NoDup (Username <$> snd kv)) ->
  (forall k, k ∈ kvs.*1 -> acc !! k = None) ->
  foldl (fun idBased kv => dedupInto (lookup_str ccMap (fst kv)) (snd kv) idBased) acc kvs
    !! cc
  = match (list_to_map kvs : gmap string (list UserAssignment)) !! cc with
    | Some l => Some (Username <$> l)
    | None => acc !! cc
    end.
Proof.
  induction kvs as [|[k l] kvs IH]; intros acc cc Hnd Hgood Hfresh;
    cbn [foldl list_to_map foldr].
  - rewrite lookup_empty. reflexivity.
  - cbn [fmap list_fmap fst] in Hnd. apply NoDup_cons in Hnd as [Hk Hnd].
    destruct (Hgood (k, l)) as (Hid & Hne & Hl); [left|]. cbn [fst snd] in *.
    rewrite Hid, (dedupInto_NoDup k l acc Hl).
    destruct l as [|ua l]; [contradiction|].
    unfold lookup_list. rewrite (Hfresh k) by left. cbn [default from_option app].
    rewrite IH; [| exact Hnd | |].
    + destruct (decide (k = cc)) as [->|Hkc].
      * rewrite (not_elem_of_list_to_map_1 kvs cc Hk), !lookup_insert_eq. reflexivity.
      * rewrite !lookup_insert_ne by exact Hkc. reflexivity.
    + intros kv Hin. apply Hgood. right. exact Hin.
    + intros k' Hk'. rewrite lookup_insert_ne by (intros ->; contradiction).
      apply Hfresh. right. exact Hk'.
Qed.

End PlanCounts.

Section PlanClaims.
Import GoInt Go Github Engine Fixtures.

Context {W : Type} (R : Remote W) (ord : MapOrder) (m : Manager).

(** The lists [BuildTeamAssignments] returns are not empty and name no
    user twice. *)
Lemma BuildTeamAssignments_lists (s : State W) asg cc l :
  val (BuildTeamAssignments R ord m s) = Ok (Some asg) ->
  asg !! cc = Some l ->
  l <> [] /\ NoDup (Username <$> l).
Proof.
  intros Hb Hl. split.
  - destruct (BuildTeamAssignments_groups R ord m s asg Hb) as (uf & utm & done & _ & ->).
    unfold groupByCostCenter in Hl. eapply group_fold_nonempty; [|exact Hl].
    intros cc' l' H. rewrite lookup_empty in H. discriminate.
  - pose proof (BuildTeamAssignments_NoDup R ord m s asg Hb) as Hnd.
    assert (Hperm : allAssignments asg ≡ₚ l ++ allAssignments (delete cc asg)).
    { unfold allAssignments. rewrite <- (map_to_list_delete asg cc l Hl). reflexivity. }
    rewrite Hperm, fmap_app in Hnd. apply NoDup_app in Hnd as [Hnd _]. exact Hnd.
Qed.

(** In plan mode every cost center is listed under its own name with the
    users of its assignments. *)
Lemma plan_idBased (s : State W) asg cc :
  val (BuildTeamAssignments R ord m s) = Ok (Some asg) ->
  idBasedOf ord asg
    (foldl (fun ccMap n => <[n := n]> ccMap) ∅
       (sort_Strings (fst <$> range ord 422 asg))) !! cc
  = (fun l => Username <$> l) <$> asg !! cc.
Proof.
  intros Hb. unfold idBasedOf.
  pose proof (range_perm ord 452 _ asg) as Hperm.
  assert (Hkeys : NoDup (range ord 452 asg).*1)
    by (rewrite Hperm; apply NoDup_fst_map_to_list).
  rewrite idBased_fold_identity; [| exact Hkeys | | intros; apply lookup_empty].
  - rewrite (list_to_map_proper _ (map_to_list asg) Hkeys Hperm), list_to_map_to_list.
    destruct (asg !! cc); [reflexivity | apply lookup_empty].
  - intros [k l] Hin. rewrite Hperm in Hin. apply elem_of_map_to_list in Hin.
    cbn [fst snd]. split; [|exact (BuildTeamAssignments_lists s asg k l Hb Hin)].
    unfold lookup_str. rewrite identity_map_lookup, decide_True; [reflexivity|].
    apply sort_Strings_elem. rewrite (range_perm ord 422 _ asg).
    apply list_elem_of_fmap. exists (k, l). split; [reflexivity|].
    apply elem_of_map_to_list. exact Hin.
Qed.

(** A plan run is the run of [BuildTeamAssignments] followed by log
    records, among them one count for every cost center. *)
Lemma plan_run (ignoreCurrentCC : bool) (s : State W) :
  exists logs,
    events (SyncTeamAssignments R ord m "plan" ignoreCurrentCC s)
    = events (BuildTeamAssignments R ord m s) ++ logs
    /\ Forall (fun e => is_log e = true) logs
    /\ match val (BuildTeamAssignments R ord m s) with
       | Err e => val (SyncTeamAssignments R ord m "plan" ignoreCurrentCC s) = Err e
       | Ok built =>
           val (SyncTeamAssignments R ord m "plan" ignoreCurrentCC s) = Ok None
           /\ ((size (default ∅ built) =? 0)%nat = false ->
               forall kv,
                 kv ∈ range ord 474
                        (idBasedOf ord (default ∅ built)
                           (foldl (fun ccMap n => <[n := n]> ccMap) ∅
                              (sort_Strings (fst <$> range ord 422 (default ∅ built))))) ->
                 wouldAssign kv ∈ logs)
       end.
Proof.
  unfold SyncTeamAssignments. rewrite run_bind. cbn [val final events fst snd].
  destruct (val (BuildTeamAssignments R ord m s)) as [built|e].
  2:{ exists []. cbn. auto. }
  cbv zeta. destruct (size (default ∅ built) =? 0)%nat.
  { exists []. cbn. split; [reflexivity | split; [constructor | split; [reflexivity|]]].
    discriminate. }
  change (String.eqb "plan" "plan") with true. cbv iota.
  set (asg := default ∅ built).
  set (ccMap := foldl (fun ccMap n => <[n := n]> ccMap) ∅
                  (sort_Strings (fst <$> range ord 422 asg))).
  set (s1 := final (BuildTeamAssignments R ord m s)).
  unfold syncPrepared. change (String.eqb "plan" "plan") with true. cbv iota zeta.
  rewrite !run_bind. cbn [emit val final events fst snd app].
  destruct (events_foldM_emit wouldAssign (range ord 474 (idBasedOf ord asg ccMap)) s1)
    as [Hev Hfin].
  unfold wouldAssign in Hev, Hfin. rewrite Hev, Hfin.
  eexists. split; [reflexivity | split; [|split]].
  - constructor; [reflexivity|]. constructor; [reflexivity|]. constructor; [reflexivity|].
    apply Forall_app. split.
    + apply Forall_fmap, Forall_forall. intros kv _. reflexivity.
    + destruct (removeUsers m); cbn; repeat constructor.
  - destruct (removeUsers m); reflexivity.
  - intros _ kv Hkv. right. right. right. apply elem_of_app. left.
    apply (list_elem_of_fmap_2 wouldAssign) in Hkv. exact Hkv.
Qed.

(** C4, as stated, at the scenario of the design document with full sync
    enabled: the apply run asks for the current members of the cost center
    of [team-a] (before it adds users, and again to detect stale users), a
    request that only reads, and the plan run from the same state does not
    send it. *)
Lemma plan_mode_skips_reads_counterexample :
  ~ (forall (W : Type) (R : Remote W) (ord : MapOrder) (m : Manager)
            (ignoreCurrentCC : bool) (s : State W) (e : Event),
        e ∈ events (SyncTeamAssignments R ord m "apply" ignoreCurrentCC s) ->
        reading e = true ->
        e ∈ events (SyncTeamAssignments R ord m "plan" ignoreCurrentCC s)).
Proof.
  intros H.
  pose (e := EvGetCostCenter "[org team] org1/team-a"
               (Ok (mkDetail "[org team] org1/team-a" "" "active"
                      [mkResource "User" "alice"; mkResource "User" "bob";
                       mkResource "User" "dave"]))).
  specialize (H unit demoRemote listOrder (demoManager false true) false freshState e).
  assert (Hin : e ∈ events (SyncTeamAssignments demoRemote listOrder
                              (demoManager false true) "apply" false freshState)).
  { apply list_elem_of_In. vm_compute. do 4 right. left. reflexivity. }
  specialize (H Hin eq_refl). apply list_elem_of_In in H. vm_compute in H.
  repeat (destruct H as [H|H]; [discriminate H|]). exact H.
Qed.

(** C4 (amended).  A plan run sends no request that changes the remote
    state, whether [BuildTeamAssignments] succeeds or fails: its events are
    those of [BuildTeamAssignments] (requests for teams and for their
    members) followed by log records only.  It returns the error of
    [BuildTeamAssignments] or [(nil, nil)], and for every cost center of the
    assignments it reports the name and the number of its users.  The
    provisioning, the additions and the removal pass, with the requests by
    which they read, are not run. *)
Theorem plan_mode_sends_no_mutating_request (ignoreCurrentCC : bool) (s : State W) :
  Forall (fun e => mutating e = false)
    (events (SyncTeamAssignments R ord m "plan" ignoreCurrentCC s))
  /\ (exists logs,
        events (SyncTeamAssignments R ord m "plan" ignoreCurrentCC s)
        = events (BuildTeamAssignments R ord m s) ++ logs
        /\ Forall (fun e => is_log e = true) logs)
  /\ match val (BuildTeamAssignments R ord m s) with
     | Err e => val (SyncTeamAssignments R ord m "plan" ignoreCurrentCC s) = Err e
     | Ok None => val (SyncTeamAssignments R ord m "plan" ignoreCurrentCC s) = Ok None
     | Ok (Some asg) =>
         val (SyncTeamAssignments R ord m "plan" ignoreCurrentCC s) = Ok None
         /\ forall cc l,
              asg !! cc = Some l ->
              EvLog "INFO" "Would assign"
                [("cost_center", LStr cc); ("users", LInt (len l))]
                ∈ events (SyncTeamAssignments R ord m "plan" ignoreCurrentCC s)
     end.
Proof.
  destruct (plan_run ignoreCurrentCC s) as (logs & Hev & Hlogs & Hval).
  split; [|split].
  - rewrite Hev. apply Forall_app. split.
    + apply BuildTeamAssignments_quiet.
    + eapply Forall_impl; [exact Hlogs|]. intros e He. destruct e; try discriminate He.
      reflexivity.
  - eauto.
  - destruct (val (BuildTeamAssignments R ord m s)) as [[asg|]|e] eqn:Hb.
    + destruct Hval as [Hnone Hcounts]. split; [exact Hnone|].
      intros cc l Hl. cbn [default from_option] in Hcounts. unfold id in Hcounts.
      assert (Hsize : (size asg =? 0)%nat = false).
      { apply Nat.eqb_neq. intros Hz. apply map_size_empty_iff in Hz.
        rewrite Hz, lookup_empty in Hl. discriminate. }
      rewrite Hev. apply elem_of_app. right.
      replace (len l) with (len (Username <$> l)) by (unfold len; rewrite length_fmap; reflexivity).
      change (wouldAssign (cc, Username <$> l) ∈ logs).
      apply (Hcounts Hsize (cc, Username <$> l)).
      rewrite (range_perm ord 474 _ _). apply elem_of_map_to_list.
      rewrite (plan_idBased s asg cc Hb), Hl. reflexivity.
    + apply Hval.
    + exact Hval.
Qed.

End PlanClaims.

(** ** The scenarios of the design document, evaluated *)

Section Scenarios.
Import GoInt Go Github Engine Fixtures CallLayer.

(** Desired membership alice and bob, remote membership alice, bob and
    dave: with full sync enabled dave is reported and removed in one
    request. *)
Example removal_with_full_sync :
  events (handleUserRemoval demoRemote listOrder (demoManager false true)
            (<["X" := ["alice"; "bob"]]> ∅) (<["X" := "X"]> ∅) None freshState)
  = [EvGetCostCenter "X"
       (Ok (mkDetail "X" "" "active"
              [mkResource "User" "alice"; mkResource "User" "bob";
               mkResource "User" "dave"]));
     EvLog "WARN" "Users no longer in team for cost center"
       [("cost_center", LStr "X"); ("count", LInt 1)];
     staleReport "X" "dave";
     EvLog "INFO" "Removing users no longer in team"
       [("cost_center", LStr "X"); ("count", LInt 1)];
     EvDeleteUsers "X" ["dave"] (Ok tt)].
Proof. vm_compute. reflexivity. Qed.

(** The same with full sync disabled: dave is reported and stays. *)
Example removal_without_full_sync :
  events (handleUserRemoval demoRemote listOrder (demoManager false false)
            (<["X" := ["alice"; "bob"]]> ∅) (<["X" := "X"]> ∅) None freshState)
  = [EvGetCostCenter "X"
       (Ok (mkDetail "X" "" "active"
              [mkResource "User" "alice"; mkResource "User" "bob";
               mkResource "User" "dave"]));
     EvLog "WARN" "Users no longer in team for cost center"
       [("cost_center", LStr "X"); ("count", LInt 1)];
     staleReport "X" "dave";
     EvLog "INFO" "Full sync DISABLED -- users will remain in cost center"
       [("cost_center", LStr "X")]].
Proof. vm_compute. reflexivity. Qed.

(** Three 503 answers: two back-offs of 1 s and 2 s, then the error. *)
Example three_server_errors :
  doJSON unit (fun _ => None) true
    [mkStep (DoResp (mkResponse 503 "" (Stream "busy" false))) 0;
     mkStep (DoResp (mkResponse 503 "" (Stream "busy" false))) Second;
     mkStep (DoResp (mkResponse 503 "" (Stream "busy" false))) (3 * Second);
     mkStep (DoResp (mkResponse 200 "" NoBody)) (4 * Second)]
  = mkRun (Some (RetAPIError (mkResponse 503 "" (Stream "busy" false)) 503 "busy"))
          [SleepBackoff (1 * Second); SleepBackoff (2 * Second)] 3.
Proof. vm_compute. reflexivity. Qed.

(** A 429 with a reset two seconds ahead on the last attempt: a sleep of
    three seconds, and the next answer is still taken. *)
Example rate_limit_on_last_attempt :
  doJSON_loop unit (fun _ => None) false 2
    [mkStep (DoResp (mkResponse 429 "102" NoBody)) (100 * Second);
     mkStep (DoResp (mkResponse 204 "" NoBody)) (103 * Second)]
  = mkRun (Some (RetOK (mkResponse 204 "" NoBody) None)) [SleepRateLimit (3 * Second)] 2.
Proof. vm_compute. reflexivity. Qed.

End Scenarios.

(* ===================================================================== *)
(** * Further properties of the code *)
(* ===================================================================== *)

(** ** The cache: expiry, statistics and clean-up *)

Section CacheOpsFacts.
Import GoInt Go Cache CacheOps.

Lemma sat64_mono x y : x <= y -> sat64 x <= sat64 y.
Proof. unfold sat64, minInt64, maxInt64. lia. Qed.

Lemma expired_entries_stay_expired_aux (now now' : Z) (e : Entry) :
  now <= now' -> IsExpired now e = true -> IsExpired now' e = true.
Proof.
  unfold IsExpired, time_Since. cbv zeta. intros Hle H.
  apply Z.ltb_lt in H. apply Z.ltb_lt.
  pose proof (sat64_mono (now - CachedAt e) (now' - CachedAt e)). lia.
Qed.

(** X1.  Expiry is monotone in time: an entry that [IsExpired] reports
    expired when the clock reads [now] is reported expired at every later
    reading, whatever its TTL and time stamp (also where the TTL or the age
    leaves the range of a [Duration]). *)
Theorem expired_entries_stay_expired (now now' : Z) (e : Entry) :
  now <= now' -> IsExpired now e = true -> IsExpired now' e = true.
Proof. apply expired_entries_stay_expired_aux. Qed.

Lemma expired_entries_stay_expired_witness :
  IsExpired (30 * Hour) (mkEntry "cc-1" "Team A" 0 24) = true.
Proof.
  apply (expired_entries_stay_expired (25 * Hour) (30 * Hour)).
  - unfold Hour, Second. lia.
  - vm_compute. reflexivity.
Defined.

Lemma length_filter_map_to_list {A} (P : string * A -> Prop) `{forall kv, Decision (P kv)}
    (mp : gmap string A) :
  length (filter P (map_to_list mp)) = size (filter P mp).
Proof.
  induction mp as [|k x mp Hk _ IH] using map_first_key_ind.
  - rewrite map_to_list_empty, map_filter_empty, map_size_empty. reflexivity.
  - rewrite map_to_list_insert by exact Hk.
    destruct (decide (P (k, x))) as [HP|HP].
    + rewrite filter_cons_True by exact HP.
      rewrite map_filter_insert_True by exact HP.
      rewrite map_size_insert_None by (rewrite map_lookup_filter_None; auto).
      cbn [length]. rewrite IH. reflexivity.
    + rewrite filter_cons_False by exact HP.
      rewrite map_filter_insert_False by exact HP.
      rewrite delete_id by exact Hk. exact IH.
Qed.

Lemma stat_fold examinedAt (kvs : list (string * Entry)) : forall s,
  foldl (statStep examinedAt) s kvs
  = (fst s + Z.of_nat (length (filter (fun kv => IsExpired (examinedAt kv.1) kv.2 = true) kvs)),
     snd s + Z.of_nat (length (filter (fun kv => IsExpired (examinedAt kv.1) kv.2 = false) kvs))).
Proof.
  induction kvs as [|kv kvs IH]; intros s; cbn [foldl].
  - rewrite !filter_nil. cbn [length]. destruct s; cbn; f_equal; lia.
  - rewrite IH. unfold statStep.
    destruct (IsExpired (examinedAt kv.1) kv.2) eqn:He.
    + rewrite filter_cons_True by exact He.
      rewrite filter_cons_False by (rewrite He; discriminate).
      cbn [fst snd length]. f_equal; lia.
    + rewrite filter_cons_False by (rewrite He; discriminate).
      rewrite filter_cons_True by exact He.
      cbn [fst snd length]. f_equal; lia.
Qed.

Lemma length_filter_split {A} (f : A -> bool) (l : list A) :
  (length (filter (fun a => f a = true) l) + length (filter (fun a => f a = false) l)
   = length l)%nat.
Proof.
  induction l as [|a l IH]; [reflexivity|].
  destruct (f a) eqn:Hf.
  - rewrite filter_cons_True by exact Hf.
    rewrite filter_cons_False by (rewrite Hf; discriminate). cbn [length]. lia.
  - rewrite filter_cons_False by (rewrite Hf; discriminate).
    rewrite filter_cons_True by exact Hf. cbn [length]. lia.
Qed.

Lemma hits_spec now key c e :
  Entries c !! key = Some e -> hits now key c = negb (IsExpired now e).
Proof.
  intros H. unfold hits, Get. rewrite H. destruct (IsExpired now e); reflexivity.
Qed.

(** X2.  The statistics agree with the lookups: whatever the order in
    which [GetStats] visits the table, the total is the number of expired
    plus the number of valid entries, and the valid entries are exactly the
    keys for which [Get], asked at the moment the entry is examined, returns
    the entry. *)
Theorem GetStats_counts_the_entries_Get_returns
    (ord : MapOrder) (examinedAt : string -> Z) (filePath : string) (stat : option Z)
    (c : Cache) :
  let st := GetStats ord examinedAt filePath stat c in
  TotalEntries st = ExpiredEntries st + ValidEntries st
  /\ ValidEntries st
     = Z.of_nat (size (filter (fun kv => hits (examinedAt kv.1) kv.1 c = true) (Entries c)))
  /\ TotalEntries st = Z.of_nat (size (Entries c)).
Proof.
  cbv zeta. unfold GetStats. cbv zeta. cbn [TotalEntries ExpiredEntries ValidEntries].
  rewrite stat_fold. cbn [fst snd].
  pose proof (range_perm ord 200 _ (Entries c)) as Hperm.
  rewrite !Hperm.
  split; [|split; [|reflexivity]].
  - pose proof (length_filter_split (fun kv => IsExpired (examinedAt kv.1) kv.2)
                  (map_to_list (Entries c))) as Hs.
    rewrite length_map_to_list in Hs. lia.
  - rewrite length_filter_map_to_list. rewrite Z.add_0_l. do 2 f_equal.
    apply map_filter_strong_ext. intros k e. split.
    + intros [He Hk]. split; [|exact Hk]. cbn [fst snd] in *.
      rewrite (hits_spec _ k c e Hk), He. reflexivity.
    + intros [He Hk]. split; [|exact Hk]. cbn [fst snd] in *.
      rewrite (hits_spec _ k c e Hk) in He. destruct (IsExpired (examinedAt k) e); [discriminate|reflexivity].
Qed.

(** The clean-up loop deletes the keys of the expired entries it meets and
    counts them. *)
Lemma cleanup_fold examinedAt (kvs : list (string * Entry)) : forall acc,
  foldl (cleanupStep examinedAt) acc kvs
  = (foldl (fun mp k => delete k mp) (fst acc)
           (filter (fun kv => IsExpired (examinedAt kv.1) kv.2 = true) kvs).*1,
     snd acc
     + Z.of_nat (length (filter (fun kv => IsExpired (examinedAt kv.1) kv.2 = true) kvs))).
Proof.
  induction kvs as [|kv kvs IH]; intros acc; cbn [foldl].
  - rewrite filter_nil. cbn. destruct acc; cbn; f_equal; lia.
  - rewrite IH. unfold cleanupStep.
    destruct (IsExpired (examinedAt kv.1) kv.2) eqn:He.
    + rewrite filter_cons_True by exact He.
      cbn [fst snd length fmap list_fmap foldl]. f_equal. lia.
    + rewrite filter_cons_False by (rewrite He; discriminate). reflexivity.
Qed.

Lemma lookup_delete_all {A} (ks : list string) : forall (mp : gmap string A) k,
  foldl (fun mp k => delete k mp) mp ks !! k = if decide (k ∈ ks) then None else mp !! k.
Proof.
  induction ks as [|k0 ks IH]; intros mp k; cbn [foldl].
  - rewrite decide_False by (intros H; inversion H). reflexivity.
  - rewrite IH. destruct (decide (k ∈ ks)) as [Hin|Hnin].
    + rewrite decide_True by (right; exact Hin). reflexivity.
    + destruct (decide (k = k0)) as [->|Hne].
      * rewrite decide_True by left. apply lookup_delete_eq.
      * rewrite decide_False by (intros H; inversion H; subst; contradiction).
        apply lookup_delete_ne. congruence.
Qed.

Lemma CleanupExpired_entries ord examinedAt save c :
  Entries (snd (CleanupExpired ord examinedAt save c))
  = filter (fun kv => IsExpired (examinedAt kv.1) kv.2 = false) (Entries c).
Proof.
  unfold CleanupExpired. cbv zeta. cbn [snd Entries].
  rewrite cleanup_fold. cbn [fst].
  apply map_eq. intros k. rewrite lookup_delete_all.
  pose proof (range_perm ord 236 _ (Entries c)) as Hperm.
  destruct (decide (k ∈ _)) as [Hin|Hnin].
  - symmetry. apply map_lookup_filter_None. right. intros e Hk He. cbn [fst snd] in He.
    apply list_elem_of_fmap in Hin as ([k' e'] & -> & Hin).
    apply list_elem_of_filter in Hin as [Hexp Hin]. cbn [fst snd] in *.
    rewrite Hperm in Hin. apply elem_of_map_to_list in Hin.
    rewrite Hk in Hin. injection Hin as <-. congruence.
  - destruct (Entries c !! k) as [e|] eqn:Hk.
    + symmetry. apply map_lookup_filter_Some. split; [exact Hk|]. cbn [fst snd].
      destruct (IsExpired (examinedAt k) e) eqn:He; [|reflexivity].
      exfalso. apply Hnin. apply list_elem_of_fmap. exists (k, e). split; [reflexivity|].
      apply list_elem_of_filter. split; [exact He|].
      rewrite Hperm. apply elem_of_map_to_list. exact Hk.
    + symmetry. apply map_lookup_filter_None. left. exact Hk.
Qed.

(** X3.  [CleanupExpired] removes exactly the entries that are expired when
    they are examined and keeps every other entry as it is, in whatever
    order the table is visited; the number it returns is the number of
    entries that are gone; and when nothing had expired the table is not
    written to disk, no error is returned and the cache is unchanged. *)
Theorem CleanupExpired_removes_exactly_the_expired
    (ord : MapOrder) (examinedAt : string -> Z) (save : Cache -> option Error) (c : Cache) :
  let run := CleanupExpired ord examinedAt save c in
  Entries (snd run) = filter (fun kv => IsExpired (examinedAt kv.1) kv.2 = false) (Entries c)
  /\ fst (fst run) = Z.of_nat (size (Entries c)) - Z.of_nat (size (Entries (snd run)))
  /\ (fst (fst run) = 0 -> snd (fst run) = None /\ snd run = c).
Proof.
  cbv zeta. split; [apply CleanupExpired_entries|].
  assert (Hn : fst (fst (CleanupExpired ord examinedAt save c))
               = Z.of_nat (size (Entries c))
                 - Z.of_nat (size (Entries (snd (CleanupExpired ord examinedAt save c))))).
  { rewrite CleanupExpired_entries.
    unfold CleanupExpired. cbv zeta. cbn [fst snd]. rewrite cleanup_fold. cbn [fst snd].
    pose proof (range_perm ord 236 _ (Entries c)) as Hperm. rewrite Hperm.
    pose proof (length_filter_split (fun kv => IsExpired (examinedAt kv.1) kv.2)
                  (map_to_list (Entries c))) as Hs.
    rewrite length_map_to_list in Hs.
    rewrite <- (length_filter_map_to_list
                  (fun kv => IsExpired (examinedAt kv.1) kv.2 = false)). lia. }
  split; [exact Hn|].
  intros H0. split.
  - unfold CleanupExpired in *. cbv zeta in *. cbn [fst snd] in *. rewrite H0. reflexivity.
  - rewrite H0 in Hn.
    assert (Hsame : Entries (snd (CleanupExpired ord examinedAt save c)) = Entries c).
    { rewrite CleanupExpired_entries in *.
      apply map_subseteq_size_eq; [apply map_filter_subseteq | lia]. }
    unfold CleanupExpired in *. cbv zeta in *. cbn [fst snd Entries] in *.
    rewrite Hsame. destruct c; reflexivity.
Qed.

(** X4.  Clean-up is invisible to lookups: a [Get] issued once the entry
    of its key has been examined returns the same after [CleanupExpired] as
    it would have returned without it. *)
Theorem CleanupExpired_is_invisible_to_Get
    (ord : MapOrder) (examinedAt : string -> Z) (save : Cache -> option Error) (c : Cache)
    (now : Z) (key : string) :
  examinedAt key <= now ->
  fst (Get now key (snd (CleanupExpired ord examinedAt save c))) = fst (Get now key c).
Proof.
  intros Hle. unfold Get. rewrite CleanupExpired_entries.
  destruct (Entries c !! key) as [e|] eqn:Hk.
  - destruct (IsExpired (examinedAt key) e) eqn:He.
    + assert (Hgone : filter (fun kv => IsExpired (examinedAt kv.1) kv.2 = false)
                        (Entries c) !! key = None).
      { apply map_lookup_filter_None. right. intros e' Hk' He'. cbn [fst snd] in He'.
        rewrite Hk in Hk'. injection Hk' as <-. congruence. }
      rewrite Hgone.
      rewrite (expired_entries_stay_expired_aux _ _ _ Hle He). reflexivity.
    + assert (Hkept : filter (fun kv => IsExpired (examinedAt kv.1) kv.2 = false)
                        (Entries c) !! key = Some e).
      { apply map_lookup_filter_Some. split; [exact Hk | exact He]. }
      rewrite Hkept. destruct (IsExpired now e); reflexivity.
  - assert (Hnone : filter (fun kv => IsExpired (examinedAt kv.1) kv.2 = false)
                      (Entries c) !! key = None).
    { apply map_lookup_filter_None. left. exact Hk. }
    rewrite Hnone. reflexivity.
Qed.

Lemma CleanupExpired_is_invisible_to_Get_witness :
  fst (Get (30 * Hour) "team-a"
         (snd (CleanupExpired Fixtures.listOrder (fun _ => 25 * Hour) (fun _ => None)
                 (mkCache 24 (<["team-a" := mkEntry "cc-1" "team-a" 0 24]> ∅)))))
  = fst (Get (30 * Hour) "team-a"
           (mkCache 24 (<["team-a" := mkEntry "cc-1" "team-a" 0 24]> ∅))).
Proof.
  apply CleanupExpired_is_invisible_to_Get. unfold Hour, Second. lia.
Defined.

End CacheOpsFacts.
